(** * nOS v0.1: counting semaphores (sem.c) and event flags (flag.c)

    A shallow embedding of the two source files of the kernel's
    synchronization layer, followed by the properties of its specification.

    Every public function runs its body between [nOS_CriticalEnter] and
    [nOS_CriticalLeave]; the embedding is sequential and takes one call as
    one step over the kernel globals and the object the call points at. *)

From Stdlib Require Import ZArith List Bool Lia Permutation.
Import ListNotations.
Local Open Scope Z_scope.

(** ** What nOS.h and nOSConfig.h provide

    Neither header is part of the sources. The configuration switch and
    the constants the two files use are parameters of the development. *)

Class nOS_h : Type := {
  (** [#if NOS_SAFE > 0] guards every null-pointer check. *)
  NOS_SAFE : Z;
  (** Option bits of [nOS_FlagWait]. *)
  NOS_FLAG_WAIT : Z;
  NOS_FLAG_WAIT_ALL : Z;
  NOS_FLAG_CLEAR_ON_EXIT : Z;
  (** Thread states. *)
  NOS_READY : Z;
  NOS_TAKING_SEM : Z;
  NOS_WAITING_FLAG : Z;
  (** Width of [unsigned int] on the target. *)
  UINT_BITS : Z
}.

(** Modelled from the spec: the status codes of nOS.h, one constructor per
    macro name the two files return or document; distinct names stand for
    distinct values. *)
Inductive nOS_Error : Type :=
| NOS_OK
| NOS_E_NULL
| NOS_E_INV_VAL
| NOS_E_LOCKED
| NOS_E_ISR
| NOS_E_IDLE
| NOS_E_TIMEOUT
| NOS_E_OVERFLOW
| NOS_E_AGAIN
| NOS_E_FULL.

Definition nOS_Error_eqb (a b : nOS_Error) : bool :=
  match a, b with
  | NOS_OK, NOS_OK | NOS_E_NULL, NOS_E_NULL | NOS_E_INV_VAL, NOS_E_INV_VAL
  | NOS_E_LOCKED, NOS_E_LOCKED | NOS_E_ISR, NOS_E_ISR | NOS_E_IDLE, NOS_E_IDLE
  | NOS_E_TIMEOUT, NOS_E_TIMEOUT | NOS_E_OVERFLOW, NOS_E_OVERFLOW
  | NOS_E_AGAIN, NOS_E_AGAIN | NOS_E_FULL, NOS_E_FULL => true
  | _, _ => false
  end.

(** Modelled from the spec: [NOS_FLAG_NONE] of nOS.h, the empty bitmask
    (an unsatisfied wait has r = 0). *)
Definition NOS_FLAG_NONE : Z := 0.

(** ** Machine integers *)

Definition UINT16_MOD : Z := 65536.

Definition uint16 (x : Z) : Prop := 0 <= x < UINT16_MOD.

(** [x++] and [x--] on a [uint16_t]. *)
Definition incr16 (x : Z) : Z := (x + 1) mod UINT16_MOD.
Definition decr16 (x : Z) : Z := (x - 1) mod UINT16_MOD.

(** [~x] on an [unsigned int] of [bits] bits. *)
Definition uint_not (bits x : Z) : Z := Z.lnot x mod 2 ^ bits.

Definition uint (bits x : Z) : Prop := 0 <= x < 2 ^ bits.

(** ** Data *)

(** [nOS_FlagContext]: what a thread blocked in [nOS_FlagWait] publishes.
    [rflags] is a pointer to the local [r] of the blocked call; the field
    holds the content of that cell. *)
Record nOS_FlagContext : Type := {
  ctx_flags : Z;
  ctx_opt : Z;
  ctx_rflags : Z
}.

(** The fields of [nOS_Thread] the two files touch. [context] points at
    the [nOS_FlagContext] on the stack of the blocked call; the field holds
    that record. A thread pointer is the address of its control block. *)
Record nOS_Thread : Type := {
  prio : Z;
  state : Z;
  timeout : Z;
  context : nOS_FlagContext
}.

Record nOS_Event : Type := {
  waitingList : list nat
}.

Record nOS_Sem : Type := {
  sem_e : nOS_Event;
  count : Z;
  max : Z
}.

Record nOS_Flag : Type := {
  e : nOS_Event;
  flags : Z
}.

(** [nOS_FlagResult]: the accumulator [nOS_FlagSet] hands to the walk. *)
Record nOS_FlagResult : Type := {
  rflags : Z;
  sched : Z
}.

(** A pointer argument: [None] is [NULL], [Some x] points at an object
    whose content is [x]. *)
Definition ptr (A : Type) : Type := option A.

(** A call either returns, or suspends its thread inside [nOS_EventWait];
    [resume] is the rest of the function, run on what the wait delivers. *)
Inductive Call (W R : Type) : Type :=
| Returns (r : R)
| Suspends (resume : W -> R).

Arguments Returns {W R} r.
Arguments Suspends {W R} resume.

Definition is_null {A : Type} (p : ptr A) : bool :=
  match p with
  | None => true
  | Some _ => false
  end.

(** The thread control blocks, by address. *)
Definition TCBs : Type := nat -> nOS_Thread.

Definition store (m : TCBs) (p : nat) (t : nOS_Thread) : TCBs :=
  fun q => if Nat.eqb q p then t else m q.

(** The kernel globals the two files read, and what the collaborators
    leave behind: [readyThreads] lists the threads a signal has readied,
    in wake order, and [schedCalls] counts the calls of [nOS_Sched()]. *)
Record Kernel : Type := {
  nOS_isrNestingCounter : Z;
  nOS_lockNestingCounter : Z;
  nOS_runningThread : nat;
  nOS_mainThread : nat;
  threads : TCBs;
  readyThreads : list nat;
  schedCalls : nat
}.

Definition with_threads (k : Kernel) (m : TCBs) : Kernel :=
  {| nOS_isrNestingCounter := nOS_isrNestingCounter k;
     nOS_lockNestingCounter := nOS_lockNestingCounter k;
     nOS_runningThread := nOS_runningThread k;
     nOS_mainThread := nOS_mainThread k;
     threads := m;
     readyThreads := readyThreads k;
     schedCalls := schedCalls k |}.

Definition with_ready (k : Kernel) (l : list nat) : Kernel :=
  {| nOS_isrNestingCounter := nOS_isrNestingCounter k;
     nOS_lockNestingCounter := nOS_lockNestingCounter k;
     nOS_runningThread := nOS_runningThread k;
     nOS_mainThread := nOS_mainThread k;
     threads := threads k;
     readyThreads := l;
     schedCalls := schedCalls k |}.

Definition set_state (t : nOS_Thread) (s : Z) : nOS_Thread :=
  {| prio := prio t; state := s; timeout := timeout t; context := context t |}.

Definition set_timeout (t : nOS_Thread) (n : Z) : nOS_Thread :=
  {| prio := prio t; state := state t; timeout := n; context := context t |}.

Definition set_context (t : nOS_Thread) (c : nOS_FlagContext) : nOS_Thread :=
  {| prio := prio t; state := state t; timeout := timeout t; context := c |}.

Definition set_rflags (c : nOS_FlagContext) (r : Z) : nOS_FlagContext :=
  {| ctx_flags := ctx_flags c; ctx_opt := ctx_opt c; ctx_rflags := r |}.

(** ** The collaborators of nOS.c *)

(** Modelled from the spec: [nOS_Sched()], a request for a reschedule;
    the request is counted and the dispatch is left to the scheduler. *)
Definition nOS_Sched (k : Kernel) : Kernel :=
  {| nOS_isrNestingCounter := nOS_isrNestingCounter k;
     nOS_lockNestingCounter := nOS_lockNestingCounter k;
     nOS_runningThread := nOS_runningThread k;
     nOS_mainThread := nOS_mainThread k;
     threads := threads k;
     readyThreads := readyThreads k;
     schedCalls := S (schedCalls k) |}.

(** Modelled from the spec: [nOS_EventCreate], which gives the object an
    empty waiting list. *)
Definition nOS_EventCreate (ev : nOS_Event) : nOS_Event :=
  {| waitingList := [] |}.

(** Modelled from the spec: the choice [nOS_EventSignal] makes, the
    waiting thread of highest priority (a larger [prio] outranks a smaller
    one; among equals the first in list order is taken). *)
Fixpoint highest (m : TCBs) (l : list nat) : option nat :=
  match l with
  | [] => None
  | t :: l' =>
      match highest m l' with
      | Some u => if prio (m t) <? prio (m u) then Some u else Some t
      | None => Some t
      end
  end.

Definition unlink (t : nat) (l : list nat) : list nat :=
  filter (fun u => negb (Nat.eqb u t)) l.

Section Model.

Context {hdr : nOS_h}.

(** Modelled from the spec: [SignalThread], the wake of one waiting
    thread: it leaves the waiting list of its event and becomes ready.
    The event is the one [thread->event] points at. *)
Definition SignalThread (k : Kernel) (ev : nOS_Event) (thread : nat)
  : Kernel * nOS_Event :=
  let k1 := with_threads k
              (store (threads k) thread (set_state (threads k thread) NOS_READY)) in
  (with_ready k1 (readyThreads k1 ++ [thread]),
   {| waitingList := unlink thread (waitingList ev) |}).

(** Modelled from the spec: [nOS_EventSignal], which takes the
    highest-priority waiting thread off the list and readies it, or
    reports that none is waiting. *)
Definition nOS_EventSignal (k : Kernel) (ev : nOS_Event)
  : Kernel * nOS_Event * option nat :=
  match highest (threads k) (waitingList ev) with
  | Some t => let '(k1, ev1) := SignalThread k ev t in (k1, ev1, Some t)
  | None => (k, ev, None)
  end.

(** Modelled from the spec: [nOS_EventWait], which puts the running
    thread on the waiting list for [tout] ticks and suspends it. The
    status the wait resolves to reaches the caller when it is resumed. *)
Definition nOS_EventWait (k : Kernel) (ev : nOS_Event) (st tout : Z)
  : Kernel * nOS_Event :=
  let me := nOS_runningThread k in
  (with_threads k
     (store (threads k) me (set_timeout (set_state (threads k me) st) tout)),
   {| waitingList := waitingList ev ++ [me] |}).

(** Modelled from the spec: [nOS_ListWalk], one call of the visitor per
    thread that is on the list when the walk starts, in list order. *)
Definition nOS_ListWalk {A : Type} (l : list nat) (callback : nat -> A -> A)
  (arg : A) : A :=
  fold_left (fun a payload => callback payload a) l arg.

(** ** sem.c *)

Definition nOS_SemCreate (sem : ptr nOS_Sem) (count0 max0 : Z)
  : option (nOS_Error * ptr nOS_Sem) :=
  if (0 <? NOS_SAFE) && is_null sem then Some (NOS_E_NULL, sem)
  else if (0 <? NOS_SAFE) && (max0 =? 0) then Some (NOS_E_INV_VAL, sem)
  else if (0 <? NOS_SAFE) && (max0 <? count0) then Some (NOS_E_INV_VAL, sem)
  else
    match sem with
    | None => None
    | Some s =>
        Some (NOS_OK,
              Some {| sem_e := nOS_EventCreate (sem_e s);
                      count := count0;
                      max := max0 |})
    end.

Definition nOS_SemTake (k : Kernel) (sem : ptr nOS_Sem) (tout : Z)
  : option (Call nOS_Error nOS_Error * Kernel * ptr nOS_Sem) :=
  if (0 <? NOS_SAFE) && is_null sem then Some (Returns NOS_E_NULL, k, sem)
  else if 0 <? nOS_isrNestingCounter k then Some (Returns NOS_E_ISR, k, sem)
  else if 0 <? nOS_lockNestingCounter k then Some (Returns NOS_E_LOCKED, k, sem)
  else if Nat.eqb (nOS_runningThread k) (nOS_mainThread k) && (0 <? tout)
  then Some (Returns NOS_E_IDLE, k, sem)
  else
    match sem with
    | None => None
    | Some s =>
        if 0 <? count s then
          Some (Returns NOS_OK, k,
                Some {| sem_e := sem_e s; count := decr16 (count s); max := max s |})
        else if 0 <? tout then
          let '(k1, e1) := nOS_EventWait k (sem_e s) NOS_TAKING_SEM tout in
          Some (Suspends (fun err => err), k1,
                Some {| sem_e := e1; count := count s; max := max s |})
        else Some (Returns NOS_E_AGAIN, k, Some s)
    end.

Definition nOS_SemGive (k : Kernel) (sem : ptr nOS_Sem)
  : option (nOS_Error * Kernel * ptr nOS_Sem) :=
  if (0 <? NOS_SAFE) && is_null sem then Some (NOS_E_NULL, k, sem)
  else
    match sem with
    | None => None
    | Some s =>
        let '(k1, e1, thread) := nOS_EventSignal k (sem_e s) in
        match thread with
        | Some t =>
            let k2 :=
              if (state (threads k1 t) =? NOS_READY)
                 && (prio (threads k1 (nOS_runningThread k1)) <? prio (threads k1 t))
              then nOS_Sched k1 else k1 in
            Some (NOS_OK, k2,
                  Some {| sem_e := e1; count := count s; max := max s |})
        | None =>
            if count s <? max s then
              Some (NOS_OK, k1,
                    Some {| sem_e := e1; count := incr16 (count s); max := max s |})
            else
              Some (NOS_E_OVERFLOW, k1,
                    Some {| sem_e := e1; count := count s; max := max s |})
        end
    end.

(** ** flag.c *)

(** The visitor of the walk. [arg] is the memory it reaches: the control
    blocks, the flag object behind [thread->event] (the object whose list
    is walked) and the accumulator [res]. *)
Definition TestFlag (payload : nat) (arg : Kernel * nOS_Flag * nOS_FlagResult)
  : Kernel * nOS_Flag * nOS_FlagResult :=
  let '(k, flag, res) := arg in
  let thread := payload in
  let ctx := context (threads k thread) in
  let r := Z.land (flags flag) (ctx_flags ctx) in
  let r :=
    if (Z.land (ctx_opt ctx) NOS_FLAG_WAIT =? NOS_FLAG_WAIT_ALL)
       && negb (r =? ctx_flags ctx)
    then NOS_FLAG_NONE else r in
  if negb (r =? NOS_FLAG_NONE) then
    let '(k1, e1) := SignalThread k (e flag) thread in
    let k2 :=
      with_threads k1
        (store (threads k1) thread
           (set_context (threads k1 thread)
              (set_rflags (context (threads k1 thread)) r))) in
    let res1 :=
      if negb (Z.land (ctx_opt (context (threads k2 thread))) NOS_FLAG_CLEAR_ON_EXIT =? 0)
      then {| rflags := Z.lor (rflags res) r; sched := sched res |}
      else res in
    let res2 :=
      if prio (threads k2 (nOS_runningThread k2)) <? prio (threads k2 thread)
      then {| rflags := rflags res1; sched := 1 |}
      else res1 in
    (k2, {| e := e1; flags := flags flag |}, res2)
  else (k, flag, res).

Definition nOS_FlagCreate (flag : ptr nOS_Flag) (flags0 : Z)
  : option (nOS_Error * ptr nOS_Flag) :=
  if (0 <? NOS_SAFE) && is_null flag then Some (NOS_E_FULL, flag)
  else
    match flag with
    | None => None
    | Some f =>
        Some (NOS_OK,
              Some {| e := nOS_EventCreate (e f); flags := flags0 |})
    end.

(** [res] points at the caller's variable; the call gives back its
    content. A suspended call is resumed on the status of the wait and the
    content its local [r] has by then. *)
Definition nOS_FlagWait (k : Kernel) (flag : ptr nOS_Flag) (opt flags0 : Z)
  (res : ptr Z) (tout : Z)
  : option (Call (nOS_Error * Z) (nOS_Error * ptr Z) * Kernel * ptr nOS_Flag) :=
  if (0 <? NOS_SAFE) && is_null flag then Some (Returns (NOS_E_NULL, res), k, flag)
  else if 0 <? nOS_isrNestingCounter k then Some (Returns (NOS_E_ISR, res), k, flag)
  else if 0 <? nOS_lockNestingCounter k then Some (Returns (NOS_E_LOCKED, res), k, flag)
  else if Nat.eqb (nOS_runningThread k) (nOS_mainThread k) && (0 <? tout)
  then Some (Returns (NOS_E_IDLE, res), k, flag)
  else
    match flag with
    | None => None
    | Some f =>
        let r := Z.land (flags f) flags0 in
        let r :=
          if (Z.land opt NOS_FLAG_WAIT =? NOS_FLAG_WAIT_ALL) && negb (r =? flags0)
          then NOS_FLAG_NONE else r in
        let leave := fun (err : nOS_Error) (r : Z) =>
          (err,
           if nOS_Error_eqb err NOS_OK
           then (if negb (is_null res) then Some r else res)
           else res) in
        if negb (r =? NOS_FLAG_NONE) then
          Some (Returns (leave NOS_OK r), k, Some f)
        else if 0 <? tout then
          let ctx := {| ctx_flags := flags0; ctx_opt := opt; ctx_rflags := r |} in
          let me := nOS_runningThread k in
          let k1 := with_threads k
                      (store (threads k) me (set_context (threads k me) ctx)) in
          let '(k2, e2) := nOS_EventWait k1 (e f) NOS_WAITING_FLAG tout in
          Some (Suspends (fun w => leave (fst w) (snd w)), k2,
                Some {| e := e2; flags := flags f |})
        else Some (Returns (leave NOS_E_AGAIN r), k, Some f)
    end.

Definition nOS_FlagSet (k : Kernel) (flag : ptr nOS_Flag) (flags0 mask : Z)
  : option (nOS_Error * Kernel * ptr nOS_Flag) :=
  if (0 <? NOS_SAFE) && is_null flag then Some (NOS_E_NULL, k, flag)
  else
    match flag with
    | None => None
    | Some f =>
        let res := {| rflags := NOS_FLAG_NONE; sched := 0 |} in
        let f1 := {| e := e f;
                     flags := Z.lxor (flags f)
                                (Z.land (Z.lxor (flags f) flags0) mask) |} in
        let '(k1, f2, res1) :=
          nOS_ListWalk (waitingList (e f1)) TestFlag (k, f1, res) in
        let f3 := {| e := e f2;
                     flags := Z.land (flags f2) (uint_not UINT_BITS (rflags res1)) |} in
        let k2 := if negb (sched res1 =? 0) then nOS_Sched k1 else k1 in
        Some (NOS_OK, k2, Some f3)
    end.

(** ** Runs of one semaphore

    The calls a semaphore receives after its creation, each with the
    kernel state it is made in (whoever runs, at whatever nesting). *)

Inductive sem_op : Type :=
| OpCreate (count0 max0 : Z)
| OpTake (tout : Z)
| OpGive.

Definition sem_step (k : Kernel) (op : sem_op) (s : nOS_Sem) : nOS_Sem :=
  match op with
  | OpCreate count0 max0 =>
      match nOS_SemCreate (Some s) count0 max0 with
      | Some (_, Some s') => s'
      | _ => s
      end
  | OpTake tout =>
      match nOS_SemTake k (Some s) tout with
      | Some (_, _, Some s') => s'
      | _ => s
      end
  | OpGive =>
      match nOS_SemGive k (Some s) with
      | Some (_, _, Some s') => s'
      | _ => s
      end
  end.

Definition sem_run (tr : list (Kernel * sem_op)) (s : nOS_Sem) : nOS_Sem :=
  fold_left (fun s ko => sem_step (fst ko) (snd ko) s) tr s.

(** The arguments are [uint16_t], and a creation meets its preconditions. *)
Definition op_pre (op : sem_op) : Prop :=
  match op with
  | OpCreate count0 max0 =>
      uint16 count0 /\ uint16 max0 /\ 0 < max0 /\ count0 <= max0
  | OpTake tout => uint16 tout
  | OpGive => True
  end.

(** What the run keeps true of the counter. *)
Definition sem_inv (s : nOS_Sem) : Prop :=
  0 <= count s <= max s /\ max s < UINT16_MOD.

(** ** The wait rule in the words of the specification

    These follow the text of the specification, not the code; the
    theorems below compare the code with them. *)

Definition spec_wait_all (opt : Z) : bool :=
  Z.land opt NOS_FLAG_WAIT =? NOS_FLAG_WAIT_ALL.

Definition spec_clear_on_exit (opt : Z) : bool :=
  negb (Z.land opt NOS_FLAG_CLEAR_ON_EXIT =? 0).

(** r = flags AND wantedFlags; under WAIT_ALL, r is 0 unless r = wantedFlags. *)
Definition spec_awoken (opt stored wanted : Z) : Z :=
  let r := Z.land stored wanted in
  if spec_wait_all opt && negb (r =? wanted) then 0 else r.

(** The r of a waiting thread against the bitmask [stored]. *)
Definition spec_r (m : TCBs) (stored : Z) (t : nat) : Z :=
  spec_awoken (ctx_opt (context (m t))) stored (ctx_flags (context (m t))).

(** The waiters a broadcast wakes, in list order. *)
Definition spec_woken (m : TCBs) (stored : Z) (l : list nat) : list nat :=
  filter (fun t => negb (spec_r m stored t =? 0)) l.

(** The union of the r of the woken waiters that asked for CLEAR_ON_EXIT. *)
Definition spec_clear_step (m : TCBs) (stored : Z) (acc : Z) (t : nat) : Z :=
  if spec_clear_on_exit (ctx_opt (context (m t)))
  then Z.lor acc (spec_r m stored t) else acc.

Definition spec_clear_union (m : TCBs) (stored : Z) (l : list nat) : Z :=
  fold_left (spec_clear_step m stored) (spec_woken m stored l) 0.

(** Whether some woken waiter outranks the running thread. *)
Definition spec_outrank (m : TCBs) (running : nat) (t : nat) : bool :=
  prio (m running) <? prio (m t).

Definition spec_outranks (m : TCBs) (running : nat) (stored : Z) (l : list nat)
  : bool :=
  existsb (spec_outrank m running) (spec_woken m stored l).

(** A woken waiter: ready, with r in the result slot its context points at. *)
Definition spec_wake (th : nOS_Thread) (r : Z) : nOS_Thread :=
  {| prio := prio th;
     state := NOS_READY;
     timeout := timeout th;
     context := {| ctx_flags := ctx_flags (context th);
                   ctx_opt := ctx_opt (context th);
                   ctx_rflags := r |} |}.

(** Two stores of control blocks that agree on what a broadcast reads. *)
Definition same_view (m1 m2 : TCBs) : Prop :=
  forall q,
    prio (m1 q) = prio (m2 q) /\
    ctx_flags (context (m1 q)) = ctx_flags (context (m2 q)) /\
    ctx_opt (context (m1 q)) = ctx_opt (context (m2 q)).

(** The caller of a blocking call passes the context checks. *)
Definition legal (k : Kernel) (tout : Z) : Prop :=
  nOS_isrNestingCounter k <= 0 /\
  nOS_lockNestingCounter k <= 0 /\
  (nOS_runningThread k = nOS_mainThread k -> tout <= 0).

End Model.

(** ** A target to run the code on

    A checked build ([NOS_SAFE] = 1) with 32-bit [unsigned int]; the
    option bits and thread states are given sample values. *)
Definition sample_h : nOS_h :=
  {| NOS_SAFE := 1;
     NOS_FLAG_WAIT := 1;
     NOS_FLAG_WAIT_ALL := 1;
     NOS_FLAG_CLEAR_ON_EXIT := 2;
     NOS_READY := 0;
     NOS_TAKING_SEM := 1;
     NOS_WAITING_FLAG := 2;
     UINT_BITS := 32 |}.

Definition idle_context : nOS_FlagContext :=
  {| ctx_flags := 0; ctx_opt := 0; ctx_rflags := 0 |}.

(** Thread [p] has priority [p]; thread 0 is the main (idle) thread. *)
Definition sample_threads : TCBs :=
  fun p => {| prio := Z.of_nat p; state := 0; timeout := 0; context := idle_context |}.

Definition sample_kernel (running : nat) : Kernel :=
  {| nOS_isrNestingCounter := 0;
     nOS_lockNestingCounter := 0;
     nOS_runningThread := running;
     nOS_mainThread := 0%nat;
     threads := sample_threads;
     readyThreads := [];
     schedCalls := 0 |}.

(** Modelled from the spec: the scheduler hands the processor to [t]. *)
Definition dispatch (k : Kernel) (t : nat) : Kernel :=
  {| nOS_isrNestingCounter := nOS_isrNestingCounter k;
     nOS_lockNestingCounter := nOS_lockNestingCounter k;
     nOS_runningThread := t;
     nOS_mainThread := nOS_mainThread k;
     threads := threads k;
     readyThreads := readyThreads k;
     schedCalls := schedCalls k |}.

Definition no_waiters : nOS_Event := {| waitingList := [] |}.

(** The scenario of the specification, up to the second Set: a group is
    created with flags = 0, thread 3 blocks in
    Wait(WAIT_ALL + CLEAR_ON_EXIT, 0b11, timeout = 100), and thread 1 sets
    bit 0, which leaves thread 3 blocked. *)
Definition blocked_waiter : option (Kernel * nOS_Flag) :=
  match @nOS_FlagCreate sample_h (Some {| e := no_waiters; flags := 5 |}) 0 with
  | Some (NOS_OK, Some f0) =>
      match @nOS_FlagWait sample_h (sample_kernel 3) (Some f0) 3 3 (Some 0) 100 with
      | Some (Suspends _, k1, Some f1) =>
          match @nOS_FlagSet sample_h (dispatch k1 1) (Some f1) 1 1 with
          | Some (NOS_OK, k2, Some f2) => Some (k2, f2)
          | _ => None
          end
      | _ => None
      end
  | _ => None
  end.

(** A semaphore three threads wait on, and a run of calls on a fresh one. *)
Definition contended_sem : nOS_Sem :=
  {| sem_e := {| waitingList := [2; 5; 3]%nat |}; count := 0; max := 2 |}.

Definition sample_run : list (Kernel * sem_op) :=
  [ (sample_kernel 1, OpTake 0);
    (sample_kernel 1, OpGive);
    (sample_kernel 0, OpGive);
    (sample_kernel 1, OpGive);
    (sample_kernel 3, OpTake 5);
    (sample_kernel 3, OpTake 5);
    (sample_kernel 4, OpTake 5);
    (sample_kernel 1, OpGive);
    (sample_kernel 1, OpCreate 1 1);
    (sample_kernel 1, OpGive) ].

(** The update step of [nOS_FlagSet] as a function of the three bitmasks:
    [new] inside [mask], [stored] outside. *)
Definition masked_update (stored new mask : Z) : Z :=
  Z.lxor stored (Z.land (Z.lxor stored new) mask).

(** Semaphores nobody waits on. *)
Definition idle_sem : nOS_Sem :=
  {| sem_e := no_waiters; count := 1; max := 3 |}.

Definition empty_sem : nOS_Sem :=
  {| sem_e := no_waiters; count := 0; max := 2 |}.

(** The kernel seen from an interrupt handler, with the scheduler locked. *)
Definition in_isr (k : Kernel) : Kernel :=
  {| nOS_isrNestingCounter := 1;
     nOS_lockNestingCounter := 1;
     nOS_runningThread := nOS_runningThread k;
     nOS_mainThread := nOS_mainThread k;
     threads := threads k;
     readyThreads := readyThreads k;
     schedCalls := schedCalls k |}.

(** Thread 3 waits for both of bits 0 and 1, with CLEAR_ON_EXIT, on a
    group that holds bit 0; [running] is the thread that runs. *)
Definition waiting_kernel (running : nat) : Kernel :=
  with_threads (sample_kernel running)
    (store sample_threads 3%nat
       {| prio := 3; state := 2; timeout := 100;
          context := {| ctx_flags := 3; ctx_opt := 3; ctx_rflags := 0 |} |}).

Definition waited_flag : nOS_Flag :=
  {| e := {| waitingList := [3%nat] |}; flags := 1 |}.

(** ** Properties *)

Section Properties.

Context {hdr : nOS_h}.

(** *** Waiting lists *)

Lemma highest_None (m : TCBs) (l : list nat) :
  highest m l = None -> l = [].
Proof.
  destruct l as [|t l']; simpl; [reflexivity|].
  destruct (highest m l') as [u|]; [|discriminate].
  destruct (prio (m t) <? prio (m u)); discriminate.
Qed.

Lemma highest_In (m : TCBs) (l : list nat) (t : nat) :
  highest m l = Some t -> In t l.
Proof.
  revert t; induction l as [|a l' IH]; simpl; intros t H; [discriminate|].
  destruct (highest m l') as [u|].
  - destruct (prio (m a) <? prio (m u)); inversion H; subst; auto.
  - inversion H; auto.
Qed.

Lemma highest_max (m : TCBs) (l : list nat) (t : nat) :
  highest m l = Some t ->
  forall u, In u l -> prio (m u) <= prio (m t).
Proof.
  revert t; induction l as [|a l' IH]; simpl; intros t H u Hu; [contradiction|].
  destruct (highest m l') as [v|] eqn:Hv.
  - specialize (IH v eq_refl).
    destruct (prio (m a) <? prio (m v)) eqn:Hlt; inversion H; subst.
    + apply Z.ltb_lt in Hlt. destruct Hu as [->|Hu]; [lia | auto].
    + apply Z.ltb_ge in Hlt. destruct Hu as [->|Hu]; [lia|].
      specialize (IH u Hu). lia.
  - inversion H; subst. apply highest_None in Hv; subst.
    destruct Hu as [->|[]]. lia.
Qed.

Lemma unlink_notin (t : nat) (l : list nat) :
  ~ In t l -> unlink t l = l.
Proof.
  induction l as [|a l' IH]; simpl; intros H; [reflexivity|].
  destruct (Nat.eqb_spec a t) as [->|Hne]; simpl.
  - exfalso; apply H; auto.
  - f_equal; apply IH; intros Hin; apply H; auto.
Qed.

Lemma unlink_Permutation (t : nat) (l : list nat) :
  NoDup l -> In t l -> Permutation l (t :: unlink t l).
Proof.
  induction l as [|a l' IH]; simpl; intros Hnd Hin; [contradiction|].
  inversion Hnd as [|? ? Hna Hnd']; subst.
  destruct (Nat.eqb_spec a t) as [->|Hne]; simpl.
  - rewrite unlink_notin by assumption. apply Permutation_refl.
  - destruct Hin as [Heq|Hin]; [contradiction|].
    eapply perm_trans; [apply perm_skip, IH; assumption|]. apply perm_swap.
Qed.

Lemma unlink_In (t u : nat) (l : list nat) :
  In u (unlink t l) <-> In u l /\ u <> t.
Proof.
  unfold unlink; rewrite filter_In.
  destruct (Nat.eqb_spec u t); simpl; intuition congruence.
Qed.

(** *** Machine arithmetic *)

Lemma incr16_small (x : Z) : 0 <= x -> x + 1 < UINT16_MOD -> incr16 x = x + 1.
Proof. intros; unfold incr16; apply Z.mod_small; lia. Qed.

Lemma decr16_small (x : Z) : 0 < x -> x < UINT16_MOD -> decr16 x = x - 1.
Proof. intros; unfold decr16; apply Z.mod_small; lia. Qed.

(** *** sem.c *)

Lemma EventSignal_none (k : Kernel) (ev : nOS_Event) :
  waitingList ev = [] -> nOS_EventSignal k ev = (k, ev, None).
Proof. intros H; unfold nOS_EventSignal; rewrite H; reflexivity. Qed.

Lemma EventSignal_some (k : Kernel) (ev : nOS_Event) :
  waitingList ev <> [] ->
  exists t, highest (threads k) (waitingList ev) = Some t /\
    nOS_EventSignal k ev =
      (fst (SignalThread k ev t), snd (SignalThread k ev t), Some t).
Proof.
  intros H; unfold nOS_EventSignal.
  destruct (highest (threads k) (waitingList ev)) as [t|] eqn:Ht.
  - exists t; split; reflexivity.
  - apply highest_None in Ht; contradiction.
Qed.

Lemma store_same (m : TCBs) (p : nat) (t : nOS_Thread) : store m p t p = t.
Proof. unfold store; rewrite Nat.eqb_refl; reflexivity. Qed.

Lemma store_other (m : TCBs) (p q : nat) (t : nOS_Thread) :
  q <> p -> store m p t q = m q.
Proof. intros H; unfold store; apply Nat.eqb_neq in H; rewrite H; reflexivity. Qed.

Lemma store_prio (m : TCBs) (p q : nat) (t : nOS_Thread) :
  prio t = prio (m p) -> prio (store m p t q) = prio (m q).
Proof.
  intros H; unfold store; destruct (Nat.eqb_spec q p); subst; auto.
Qed.

(** C1: on a valid semaphore [nOS_SemGive] does one of three things. With
    a thread waiting it wakes the waiter of highest priority, leaves
    [count] as it is, returns [NOS_OK], and calls [nOS_Sched] exactly when
    the woken thread is ready and outranks the running thread. With no
    thread waiting and [count < max] it adds one to [count] and returns
    [NOS_OK]. With no thread waiting and [count] at [max] it returns
    [NOS_E_OVERFLOW] and changes nothing. *)
Theorem SemGive_cases (k : Kernel) (s : nOS_Sem) :
  uint16 (count s) -> uint16 (max s) -> NoDup (waitingList (sem_e s)) ->
  exists err k' s',
    nOS_SemGive k (Some s) = Some (err, k', Some s') /\
    max s' = max s /\
    (waitingList (sem_e s) <> [] ->
       exists t,
         In t (waitingList (sem_e s)) /\
         (forall u, In u (waitingList (sem_e s)) ->
                    prio (threads k u) <= prio (threads k t)) /\
         Permutation (waitingList (sem_e s)) (t :: waitingList (sem_e s')) /\
         readyThreads k' = readyThreads k ++ [t] /\
         state (threads k' t) = NOS_READY /\
         (forall u, u <> t -> threads k' u = threads k u) /\
         prio (threads k' t) = prio (threads k t) /\
         count s' = count s /\
         err = NOS_OK /\
         (schedCalls k' = S (schedCalls k) <->
            state (threads k' t) = NOS_READY /\
            prio (threads k' (nOS_runningThread k')) < prio (threads k' t)) /\
         (schedCalls k' = schedCalls k \/ schedCalls k' = S (schedCalls k))) /\
    (waitingList (sem_e s) = [] -> count s < max s ->
       err = NOS_OK /\ count s' = count s + 1 /\
       sem_e s' = sem_e s /\ k' = k) /\
    (waitingList (sem_e s) = [] -> count s = max s ->
       err = NOS_E_OVERFLOW /\ s' = s /\ k' = k).
Proof.
  intros Hc Hm Hnd. unfold nOS_SemGive, nOS_EventSignal.
  rewrite andb_false_r.
  destruct (highest (threads k) (waitingList (sem_e s))) as [t|] eqn:Ht.
  - pose proof (highest_In _ _ _ Ht) as Hin.
    pose proof (highest_max _ _ _ Ht) as Hmax.
    cbn [SignalThread fst snd threads with_ready with_threads readyThreads
         nOS_runningThread].
    rewrite store_same. cbn [state set_state]. rewrite Z.eqb_refl.
    cbn [andb].
    set (c := prio _ <? prio _).
    assert (Hc' : c = (prio (threads k (nOS_runningThread k)) <? prio (threads k t))).
    { subst c. rewrite store_prio by reflexivity. reflexivity. }
    clearbody c. subst c.
    do 3 eexists. split; [reflexivity|]. split; [reflexivity|].
    split; [|split; intros He; rewrite He in Hin; contradiction].
    intros _. exists t.
    set (b := prio (threads k (nOS_runningThread k)) <? prio (threads k t)).
    assert (Hrun : forall kk, nOS_runningThread
              (if b then nOS_Sched kk else kk) = nOS_runningThread kk)
      by (intros; destruct b; reflexivity).
    assert (Hthr : forall kk, threads
              (if b then nOS_Sched kk else kk) = threads kk)
      by (intros; destruct b; reflexivity).
    split; [exact Hin|]. split; [exact Hmax|].
    split; [apply unlink_Permutation; assumption|].
    split; [destruct b; reflexivity|].
    split; [rewrite Hthr; cbn [threads with_ready with_threads];
            rewrite store_same; reflexivity|].
    split; [intros u Hu; rewrite Hthr; cbn [threads with_ready with_threads]; apply store_other; assumption|].
    split; [rewrite Hthr; cbn [threads with_ready with_threads]; rewrite store_same; reflexivity|].
    split; [reflexivity|]. split; [reflexivity|].
    rewrite Hthr, Hrun. cbn [threads nOS_runningThread with_ready with_threads].
    rewrite store_same. cbn [state prio set_state].
    rewrite store_prio by reflexivity.
    subst b.
    destruct (prio (threads k (nOS_runningThread k)) <? prio (threads k t)) eqn:Hlt;
      cbn [schedCalls nOS_Sched with_ready with_threads].
    + apply Z.ltb_lt in Hlt. split; [split; auto|right; reflexivity].
    + apply Z.ltb_ge in Hlt. split; [|left; reflexivity].
      split; [intros Hs; exfalso; lia|intros [_ Hp]; lia].
  - apply highest_None in Ht.
    destruct (count s <? max s) eqn:Hlt.
    + apply Z.ltb_lt in Hlt. do 3 eexists. split; [reflexivity|].
      split; [reflexivity|]. split; [intros; contradiction|]. split.
      * intros _ _. cbn [count sem_e]. unfold uint16 in *.
        rewrite incr16_small by lia. auto.
      * intros _ Heq; lia.
    + apply Z.ltb_ge in Hlt. do 3 eexists. split; [reflexivity|].
      split; [reflexivity|]. split; [intros; contradiction|]. split.
      * intros _ Hlt'; lia.
      * intros _ _. destruct s; simpl; auto.
Qed.

Lemma legal_isr (k : Kernel) (tout : Z) :
  legal k tout -> (0 <? nOS_isrNestingCounter k) = false.
Proof. intros [H _]; apply Z.ltb_ge; exact H. Qed.

Lemma legal_lock (k : Kernel) (tout : Z) :
  legal k tout -> (0 <? nOS_lockNestingCounter k) = false.
Proof. intros [_ [H _]]; apply Z.ltb_ge; exact H. Qed.

Lemma legal_idle (k : Kernel) (tout : Z) :
  legal k tout ->
  Nat.eqb (nOS_runningThread k) (nOS_mainThread k) && (0 <? tout) = false.
Proof.
  intros [_ [_ H]].
  destruct (Nat.eqb_spec (nOS_runningThread k) (nOS_mainThread k)) as [He|He];
    [|reflexivity].
  simpl; apply Z.ltb_ge; auto.
Qed.

Ltac pass_checks Hlegal :=
  rewrite ?andb_false_r;
  rewrite (legal_isr _ _ Hlegal), (legal_lock _ _ Hlegal), (legal_idle _ _ Hlegal).

(** C3: for a valid semaphore and a caller that passes the legality
    checks, [nOS_SemTake] with [count > 0] takes one from [count] and
    returns [NOS_OK] at once; with [count = 0] and [tout = 0] it returns
    [NOS_E_AGAIN] and changes nothing; with [count = 0] and [tout > 0] it
    puts the caller on the waiting list, suspends it, and returns the
    status the wait resolves to. *)
Theorem SemTake_cases (k : Kernel) (s : nOS_Sem) (tout : Z) :
  uint16 (count s) -> legal k tout ->
  (0 < count s ->
     nOS_SemTake k (Some s) tout =
       Some (Returns NOS_OK, k,
             Some {| sem_e := sem_e s; count := count s - 1; max := max s |})) /\
  (count s = 0 -> tout = 0 ->
     nOS_SemTake k (Some s) tout = Some (Returns NOS_E_AGAIN, k, Some s)) /\
  (count s = 0 -> 0 < tout ->
     exists resume k' s',
       nOS_SemTake k (Some s) tout = Some (Suspends resume, k', Some s') /\
       (forall status, resume status = status) /\
       waitingList (sem_e s') = waitingList (sem_e s) ++ [nOS_runningThread k] /\
       count s' = count s /\ max s' = max s /\
       state (threads k' (nOS_runningThread k)) = NOS_TAKING_SEM /\
       timeout (threads k' (nOS_runningThread k)) = tout /\
       (forall u, u <> nOS_runningThread k -> threads k' u = threads k u) /\
       readyThreads k' = readyThreads k /\ schedCalls k' = schedCalls k).
Proof.
  intros Hc Hlegal. unfold nOS_SemTake. pass_checks Hlegal.
  split; [|split].
  - intros Hpos. apply Z.ltb_lt in Hpos as Hb. rewrite Hb.
    rewrite decr16_small by (unfold uint16 in Hc; lia). reflexivity.
  - intros H0 Ht. rewrite H0, Ht. reflexivity.
  - intros H0 Ht. rewrite H0. apply Z.ltb_lt in Ht as Hb. rewrite Hb.
    cbn [Z.ltb Z.compare nOS_EventWait].
    do 3 eexists. split; [reflexivity|].
    cbn [sem_e waitingList count max threads with_threads readyThreads schedCalls].
    rewrite store_same. cbn [state timeout set_state set_timeout].
    repeat split; auto.
    intros u Hu. apply store_other; assumption.
Qed.

Lemma sem_step_inv (k : Kernel) (op : sem_op) (s : nOS_Sem) :
  op_pre op -> sem_inv s -> sem_inv (sem_step k op s).
Proof.
  unfold sem_inv, uint16, UINT16_MOD. intros Hop [Hc Hm].
  destruct op as [c m|tout|]; simpl in *; unfold uint16, UINT16_MOD in *.
  - unfold nOS_SemCreate. simpl.
    destruct (0 <? NOS_SAFE); simpl.
    + destruct (m =? 0); simpl; [lia|].
      destruct (m <? c); simpl; lia.
    + lia.
  - unfold nOS_SemTake. simpl.
    repeat match goal with
           | |- context [if ?b then _ else _] => destruct b eqn:?; simpl; try lia
           end.
    rewrite decr16_small by (unfold UINT16_MOD; lia). lia.
  - unfold nOS_SemGive, nOS_EventSignal. rewrite andb_false_r.
    destruct (highest (threads k) (waitingList (sem_e s))); simpl.
    + lia.
    + destruct (count s <? max s) eqn:Hlt; simpl; [|lia].
      apply Z.ltb_lt in Hlt. rewrite incr16_small by (unfold UINT16_MOD; lia). lia.
Qed.

Lemma sem_run_inv (tr : list (Kernel * sem_op)) (s : nOS_Sem) (n : nat) :
  Forall (fun ko => op_pre (snd ko)) tr -> sem_inv s ->
  sem_inv (sem_run (firstn n tr) s).
Proof.
  revert s n. induction tr as [|[k op] tr IH]; intros s n Hall Hs.
  - rewrite firstn_nil. exact Hs.
  - destruct n as [|n]; [exact Hs|].
    inversion Hall as [|? ? Hop Hall']; subst.
    simpl. apply IH; [assumption|]. apply sem_step_inv; assumption.
Qed.

(** C2: a semaphore created by [nOS_SemCreate] within its preconditions
    ([max > 0], [count <= max]) has [0 <= count <= max] after every prefix
    of every run of create, take and give calls. *)
Theorem sem_count_invariant (s0 : nOS_Sem) (count0 max0 : Z)
  (tr : list (Kernel * sem_op)) :
  uint16 count0 -> uint16 max0 -> 0 < max0 -> count0 <= max0 ->
  Forall (fun ko => op_pre (snd ko)) tr ->
  exists s1,
    nOS_SemCreate (Some s0) count0 max0 = Some (NOS_OK, Some s1) /\
    count s1 = count0 /\ max s1 = max0 /\ waitingList (sem_e s1) = [] /\
    forall n, 0 <= count (sem_run (firstn n tr) s1)
                <= max (sem_run (firstn n tr) s1).
Proof.
  intros Hc Hm Hpos Hle Hall. unfold nOS_SemCreate.
  assert (H1 : (max0 =? 0) = false) by (apply Z.eqb_neq; lia).
  assert (H2 : (max0 <? count0) = false) by (apply Z.ltb_ge; lia).
  rewrite H1, H2, !andb_false_r.
  eexists. split; [reflexivity|]. simpl.
  repeat split; try reflexivity;
    apply (sem_run_inv tr _ n Hall); unfold sem_inv, uint16, UINT16_MOD in *; simpl; lia.
Qed.

(** *** Bit masks *)

Lemma land_all_bits (a b : Z) :
  Z.land a b = b <->
  (forall i, 0 <= i -> Z.testbit b i = true -> Z.testbit a i = true).
Proof.
  split.
  - intros H i Hi Hb. rewrite <- H in Hb. rewrite Z.land_spec in Hb.
    apply andb_true_iff in Hb. tauto.
  - intros H. apply Z.bits_inj'. intros i Hi. rewrite Z.land_spec.
    destruct (Z.testbit b i) eqn:Hb.
    + rewrite (H i Hi Hb). reflexivity.
    + apply andb_false_r.
Qed.

Lemma land_some_bit (a b : Z) :
  0 <= a ->
  (Z.land a b <> 0 <->
   exists i, 0 <= i /\ Z.testbit b i = true /\ Z.testbit a i = true).
Proof.
  intros Ha. split.
  - intros Hne.
    assert (Hpos : 0 < Z.land a b).
    { assert (0 <= Z.land a b) by (apply Z.land_nonneg; auto). lia. }
    exists (Z.log2 (Z.land a b)). split; [apply Z.log2_nonneg|].
    pose proof (Z.bit_log2 _ Hpos) as Hbit. rewrite Z.land_spec in Hbit.
    apply andb_true_iff in Hbit. tauto.
  - intros [i [Hi [Hb Hai]]] H0.
    assert (Hbit : Z.testbit (Z.land a b) i = true)
      by (rewrite Z.land_spec, Hb, Hai; reflexivity).
    rewrite H0, Z.bits_0 in Hbit. discriminate.
Qed.

(** *** flag.c: the immediate path of nOS_FlagWait *)

Lemma FlagWait_r (opt stored wanted : Z) :
  (if (Z.land opt NOS_FLAG_WAIT =? NOS_FLAG_WAIT_ALL)
      && negb (Z.land stored wanted =? wanted)
   then NOS_FLAG_NONE else Z.land stored wanted)
  = spec_awoken opt stored wanted.
Proof. reflexivity. Qed.

Lemma FlagWait_valid (k : Kernel) (f : nOS_Flag) (opt wanted : Z)
  (res : ptr Z) (tout : Z) :
  legal k tout ->
  nOS_FlagWait k (Some f) opt wanted res tout =
    let r := spec_awoken opt (flags f) wanted in
    let leave := fun (err : nOS_Error) (r : Z) =>
      (err,
       if nOS_Error_eqb err NOS_OK
       then (if negb (is_null res) then Some r else res)
       else res) in
    if negb (r =? 0) then Some (Returns (leave NOS_OK r), k, Some f)
    else if 0 <? tout then
      let me := nOS_runningThread k in
      let k1 := with_threads k
                  (store (threads k) me
                     (set_context (threads k me)
                        {| ctx_flags := wanted; ctx_opt := opt; ctx_rflags := r |})) in
      Some (Suspends (fun w => leave (fst w) (snd w)),
            fst (nOS_EventWait k1 (e f) NOS_WAITING_FLAG tout),
            Some {| e := snd (nOS_EventWait k1 (e f) NOS_WAITING_FLAG tout);
                    flags := flags f |})
    else Some (Returns (leave NOS_E_AGAIN r), k, Some f).
Proof.
  intros Hlegal. unfold nOS_FlagWait. pass_checks Hlegal.
  rewrite FlagWait_r. reflexivity.
Qed.

(** C4: in [nOS_FlagWait], r = flags AND wantedFlags, and under WAIT_ALL
    r counts as 0 unless it equals wantedFlags. The call succeeds at once
    exactly when r is not 0, and then reports r. So under WAIT_ALL it
    succeeds at once only when every wanted bit is set, and under any
    other mode as soon as one wanted bit is set. *)
Theorem FlagWait_immediate (k : Kernel) (f : nOS_Flag) (opt wanted : Z)
  (res : ptr Z) (tout : Z) :
  0 <= flags f -> legal k tout ->
  let r := spec_awoken opt (flags f) wanted in
  (r <> 0 ->
     nOS_FlagWait k (Some f) opt wanted res tout =
       Some (Returns (NOS_OK, option_map (fun _ => r) res), k, Some f)) /\
  (r = 0 ->
     exists c k' f',
       nOS_FlagWait k (Some f) opt wanted res tout = Some (c, k', Some f') /\
       flags f' = flags f /\
       forall v, c <> Returns (NOS_OK, v)) /\
  (spec_wait_all opt = true ->
     (r <> 0 <->
        wanted <> 0 /\
        forall i, 0 <= i -> Z.testbit wanted i = true ->
                  Z.testbit (flags f) i = true) /\
     (r <> 0 -> r = wanted)) /\
  (spec_wait_all opt = false ->
     (r <> 0 <->
        exists i, 0 <= i /\ Z.testbit wanted i = true /\
                  Z.testbit (flags f) i = true) /\
     r = Z.land (flags f) wanted).
Proof.
  intros Hf Hlegal r. rewrite (FlagWait_valid _ _ _ _ _ _ Hlegal).
  cbv zeta. fold r. split; [|split; [|split]].
  - intros Hr. apply Z.eqb_neq in Hr. rewrite Hr. cbn [negb nOS_Error_eqb].
    destruct res; reflexivity.
  - intros Hr. rewrite Hr. cbn [Z.eqb negb].
    destruct (0 <? tout).
    + do 3 eexists. split; [reflexivity|]. split; [reflexivity|]. discriminate.
    + do 3 eexists. split; [reflexivity|]. split; [reflexivity|].
      intros v H; inversion H.
  - intros Hall. subst r. unfold spec_awoken. rewrite Hall. cbn [andb].
    destruct (Z.eqb_spec (Z.land (flags f) wanted) wanted) as [He|He];
      cbn [negb].
    + rewrite He. split; [|auto]. rewrite <- land_all_bits. tauto.
    + split; [|congruence]. rewrite <- land_all_bits. tauto.
  - intros Hany. subst r. unfold spec_awoken. rewrite Hany. cbn [andb].
    split; [apply land_some_bit; assumption | reflexivity].
Qed.

(** *** flag.c: the broadcast of nOS_FlagSet *)

Lemma same_view_r (m1 m2 : TCBs) (stored : Z) (q : nat) :
  same_view m1 m2 -> spec_r m1 stored q = spec_r m2 stored q.
Proof.
  intros H. destruct (H q) as [_ [Hf Ho]]. unfold spec_r. rewrite Hf, Ho.
  reflexivity.
Qed.

Lemma same_view_woken (m1 m2 : TCBs) (stored : Z) (l : list nat) :
  same_view m1 m2 -> spec_woken m1 stored l = spec_woken m2 stored l.
Proof.
  intros H. unfold spec_woken. apply filter_ext. intros q.
  rewrite (same_view_r m1 m2 stored q H). reflexivity.
Qed.

Lemma TestFlag_step (t : nat) (k : Kernel) (f : nOS_Flag) (res : nOS_FlagResult) :
  exists k1 f1 res1,
    TestFlag t (k, f, res) = (k1, f1, res1) /\
    let r := spec_r (threads k) (flags f) t in
    let w := negb (r =? 0) in
    nOS_isrNestingCounter k1 = nOS_isrNestingCounter k /\
    nOS_lockNestingCounter k1 = nOS_lockNestingCounter k /\
    nOS_runningThread k1 = nOS_runningThread k /\
    nOS_mainThread k1 = nOS_mainThread k /\
    schedCalls k1 = schedCalls k /\
    readyThreads k1 = readyThreads k ++ (if w then [t] else []) /\
    (forall q, threads k1 q =
       if w && Nat.eqb q t then spec_wake (threads k q) r else threads k q) /\
    flags f1 = flags f /\
    waitingList (e f1) =
      (if w then unlink t (waitingList (e f)) else waitingList (e f)) /\
    rflags res1 =
      (if w && spec_clear_on_exit (ctx_opt (context (threads k t)))
       then Z.lor (rflags res) r else rflags res) /\
    sched res1 =
      (if w && (prio (threads k (nOS_runningThread k)) <? prio (threads k t))
       then 1 else sched res).
Proof.
  unfold TestFlag.
  change (if (Z.land (ctx_opt (context (threads k t))) NOS_FLAG_WAIT
              =? NOS_FLAG_WAIT_ALL)
             && negb (Z.land (flags f) (ctx_flags (context (threads k t)))
                      =? ctx_flags (context (threads k t)))
          then NOS_FLAG_NONE
          else Z.land (flags f) (ctx_flags (context (threads k t))))
    with (spec_r (threads k) (flags f) t).
  change NOS_FLAG_NONE with 0.
  destruct (spec_r (threads k) (flags f) t =? 0) eqn:Hr; cbn [negb andb].
  - do 3 eexists. split; [reflexivity|]. cbv zeta.
    rewrite app_nil_r. repeat split; reflexivity.
  - cbn [SignalThread].
    do 3 eexists. split; [reflexivity|]. cbv zeta.
    cbn [nOS_isrNestingCounter nOS_lockNestingCounter nOS_runningThread
         nOS_mainThread schedCalls readyThreads threads with_threads with_ready
         flags e waitingList].
    rewrite !store_same.
    cbn [context set_context set_state set_rflags ctx_opt prio].
    rewrite (store_prio (store (threads k) t (set_state (threads k t) NOS_READY))
               t (nOS_runningThread k))
      by (rewrite store_same; reflexivity).
    rewrite store_prio by reflexivity.
    unfold spec_clear_on_exit.
    repeat split.
    + intros q. unfold store. destruct (Nat.eqb_spec q t) as [->|Hq];
        reflexivity.
    + destruct (negb (Z.land (ctx_opt (context (threads k t)))
                        NOS_FLAG_CLEAR_ON_EXIT =? 0));
        destruct (prio _ <? prio (threads k t)); reflexivity.
    + destruct (negb (Z.land (ctx_opt (context (threads k t)))
                        NOS_FLAG_CLEAR_ON_EXIT =? 0));
        destruct (prio _ <? prio (threads k t)); reflexivity.
Qed.

Lemma fold_left_pointwise {A B : Type} (g h : A -> B -> A) (l : list B) (a : A) :
  (forall x y, g x y = h x y) -> fold_left g l a = fold_left h l a.
Proof.
  intros H. revert a. induction l as [|b l IH]; intros a; simpl;
    [reflexivity|]. rewrite H. apply IH.
Qed.

Lemma same_view_clear_step (m1 m2 : TCBs) (stored acc : Z) (t : nat) :
  same_view m1 m2 -> spec_clear_step m1 stored acc t = spec_clear_step m2 stored acc t.
Proof.
  intros H. unfold spec_clear_step. rewrite (same_view_r m1 m2 stored t H).
  destruct (H t) as [_ [_ Ho]]. rewrite Ho. reflexivity.
Qed.

Lemma same_view_outrank (m1 m2 : TCBs) (running t : nat) :
  same_view m1 m2 -> spec_outrank m1 running t = spec_outrank m2 running t.
Proof.
  intros H. unfold spec_outrank.
  destruct (H t) as [Hp _]. destruct (H running) as [Hq _]. rewrite Hp, Hq.
  reflexivity.
Qed.

Lemma filter_unlink (p : nat -> bool) (t : nat) (l : list nat) :
  filter p (unlink t l) = filter (fun u => negb (Nat.eqb u t || negb (p u))) l.
Proof.
  unfold unlink. induction l as [|a l IH]; simpl; [reflexivity|].
  destruct (Nat.eqb a t); simpl; [assumption|].
  rewrite negb_involutive. destruct (p a); rewrite IH; reflexivity.
Qed.

Lemma ListWalk_TestFlag (l : list nat) :
  forall (k : Kernel) (f : nOS_Flag) (res : nOS_FlagResult),
  exists k' f' res',
    nOS_ListWalk l TestFlag (k, f, res) = (k', f', res') /\
    nOS_isrNestingCounter k' = nOS_isrNestingCounter k /\
    nOS_lockNestingCounter k' = nOS_lockNestingCounter k /\
    nOS_runningThread k' = nOS_runningThread k /\
    nOS_mainThread k' = nOS_mainThread k /\
    schedCalls k' = schedCalls k /\
    readyThreads k' = readyThreads k ++ spec_woken (threads k) (flags f) l /\
    (forall q, threads k' q =
       if existsb (Nat.eqb q) (spec_woken (threads k) (flags f) l)
       then spec_wake (threads k q) (spec_r (threads k) (flags f) q)
       else threads k q) /\
    flags f' = flags f /\
    waitingList (e f') =
      filter (fun u => negb (existsb (Nat.eqb u)
                               (spec_woken (threads k) (flags f) l)))
        (waitingList (e f)) /\
    rflags res' =
      fold_left (spec_clear_step (threads k) (flags f))
        (spec_woken (threads k) (flags f) l) (rflags res) /\
    sched res' =
      (if existsb (spec_outrank (threads k) (nOS_runningThread k))
            (spec_woken (threads k) (flags f) l)
       then 1 else sched res).
Proof.
  induction l as [|t l IH]; intros k f res.
  - exists k, f, res. cbn. rewrite app_nil_r.
    repeat split; try reflexivity.
    induction (waitingList (e f)) as [|a w IHw]; simpl; congruence.
  - unfold nOS_ListWalk. cbn [fold_left].
    destruct (TestFlag_step t k f res)
      as (k1 & f1 & res1 & Hstep & Hi1 & Hl1 & Hr1 & Hm1 & Hs1 & Hrd1 & Hth1
          & Hfl1 & Hw1 & Hrf1 & Hsc1).
    cbv zeta in *. rewrite Hstep.
    destruct (IH k1 f1 res1)
      as (k' & f' & res' & Hwalk & Hi & Hl & Hr & Hm & Hs & Hrd & Hth
          & Hfl & Hw & Hrf & Hsc).
    unfold nOS_ListWalk in Hwalk. exists k', f', res'.
    split; [exact Hwalk|].
    assert (Hview : same_view (threads k1) (threads k)).
    { intros q. rewrite Hth1.
      destruct (negb (spec_r (threads k) (flags f) t =? 0) && Nat.eqb q t);
        repeat split; reflexivity. }
    rewrite Hfl1 in *. rewrite Hr1 in *.
    rewrite (same_view_woken _ _ (flags f) l Hview) in *.
    rewrite (fold_left_pointwise _ (spec_clear_step (threads k) (flags f)))
      in Hrf by (intros; apply same_view_clear_step; exact Hview).
    assert (Hout : forall ws,
               existsb (spec_outrank (threads k1) (nOS_runningThread k)) ws
               = existsb (spec_outrank (threads k) (nOS_runningThread k)) ws).
    { intros ws. induction ws as [|a ws IHws]; simpl; [reflexivity|].
      rewrite IHws, (same_view_outrank _ _ _ a Hview). reflexivity. }
    rewrite Hout in Hsc.
    assert (Hthq : forall q, threads k' q =
              if existsb (Nat.eqb q) (spec_woken (threads k) (flags f) l)
              then spec_wake (threads k1 q) (spec_r (threads k) (flags f) q)
              else threads k1 q).
    { intros q. rewrite Hth. rewrite (same_view_r _ _ (flags f) q Hview).
      reflexivity. }
    clear Hth.
    unfold spec_woken at 1 2 3 4 5. cbn [filter].
    fold (spec_woken (threads k) (flags f) l).
    set (ws := spec_woken (threads k) (flags f) l) in *.
    split; [congruence|]. split; [congruence|]. split; [congruence|].
    split; [congruence|]. split; [congruence|].
    destruct (negb (spec_r (threads k) (flags f) t =? 0)) eqn:Hwk;
      cbn [andb] in *.
    + split; [rewrite Hrd, Hrd1, <- app_assoc; reflexivity|].
      split.
      { intros q. rewrite Hthq, Hth1. cbn [existsb].
        destruct (Nat.eqb_spec q t) as [->|Hq]; cbn [orb].
        - destruct (existsb (Nat.eqb t) ws); reflexivity.
        - reflexivity. }
      split; [exact Hfl|].
      split.
      { rewrite Hw, Hw1, filter_unlink. apply filter_ext. intros u.
        cbn [existsb]. rewrite negb_involutive. reflexivity. }
      split.
      { rewrite Hrf, Hrf1. cbn [fold_left]. unfold spec_clear_step at 3.
        reflexivity. }
      rewrite Hsc, Hsc1. cbn [existsb]. unfold spec_outrank at 2.
      destruct (prio (threads k (nOS_runningThread k)) <? prio (threads k t));
        cbn [orb]; [|reflexivity].
      destruct (existsb _ ws); reflexivity.
    + rewrite app_nil_r in Hrd1.
      split; [congruence|].
      split; [intros q; rewrite Hthq, !Hth1; reflexivity|].
      split; [exact Hfl|].
      split; [rewrite Hw, Hw1; reflexivity|].
      split; [rewrite Hrf, Hrf1; reflexivity|].
      rewrite Hsc, Hsc1; reflexivity.
Qed.

Lemma existsb_woken (m : TCBs) (stored : Z) (l : list nat) (u : nat) :
  In u l ->
  existsb (Nat.eqb u) (spec_woken m stored l) = negb (spec_r m stored u =? 0).
Proof.
  intros Hin.
  destruct (negb (spec_r m stored u =? 0)) eqn:Hu.
  - apply existsb_exists. exists u. split; [|apply Nat.eqb_refl].
    unfold spec_woken. apply filter_In. auto.
  - destruct (existsb (Nat.eqb u) (spec_woken m stored l)) eqn:He;
      [|reflexivity].
    apply existsb_exists in He. destruct He as [x [Hx Hux]].
    apply Nat.eqb_eq in Hux; subst x.
    unfold spec_woken in Hx. apply filter_In in Hx. destruct Hx as [_ Hx].
    congruence.
Qed.

Lemma In_woken (m : TCBs) (stored : Z) (l : list nat) (t : nat) :
  In t (spec_woken m stored l) <-> In t l /\ spec_r m stored t <> 0.
Proof.
  unfold spec_woken. rewrite filter_In, negb_true_iff, Z.eqb_neq. reflexivity.
Qed.

Lemma existsb_notin (ws : list nat) (q : nat) :
  ~ In q ws -> existsb (Nat.eqb q) ws = false.
Proof.
  intros H. destruct (existsb (Nat.eqb q) ws) eqn:He; [|reflexivity].
  apply existsb_exists in He. destruct He as [x [Hx Hq]].
  apply Nat.eqb_eq in Hq; subst; contradiction.
Qed.

Lemma existsb_in (ws : list nat) (q : nat) :
  In q ws -> existsb (Nat.eqb q) ws = true.
Proof.
  intros H. apply existsb_exists. exists q. split; [assumption|apply Nat.eqb_refl].
Qed.

(** What one call of [nOS_FlagSet] on a valid group leaves behind. *)
Lemma FlagSet_spec (k : Kernel) (f : nOS_Flag) (new mask : Z) :
  let stored := Z.lxor (flags f) (Z.land (Z.lxor (flags f) new) mask) in
  let l := waitingList (e f) in
  let ws := spec_woken (threads k) stored l in
  exists k' f',
    nOS_FlagSet k (Some f) new mask = Some (NOS_OK, k', Some f') /\
    nOS_isrNestingCounter k' = nOS_isrNestingCounter k /\
    nOS_lockNestingCounter k' = nOS_lockNestingCounter k /\
    nOS_runningThread k' = nOS_runningThread k /\
    nOS_mainThread k' = nOS_mainThread k /\
    schedCalls k' =
      (if spec_outranks (threads k) (nOS_runningThread k) stored l
       then S (schedCalls k) else schedCalls k) /\
    readyThreads k' = readyThreads k ++ ws /\
    (forall q, threads k' q =
       if existsb (Nat.eqb q) ws
       then spec_wake (threads k q) (spec_r (threads k) stored q)
       else threads k q) /\
    waitingList (e f') = filter (fun t => spec_r (threads k) stored t =? 0) l /\
    flags f' =
      Z.land stored (uint_not UINT_BITS (spec_clear_union (threads k) stored l)).
Proof.
  intros stored l ws. unfold nOS_FlagSet. rewrite andb_false_r.
  cbn [e flags]. fold stored. fold l.
  destruct (ListWalk_TestFlag l k {| e := e f; flags := stored |}
              {| rflags := NOS_FLAG_NONE; sched := 0 |})
    as (k1 & f1 & res1 & Hwalk & Hi & Hl & Hr & Hm & Hs & Hrd & Hth
        & Hfl & Hw & Hrf & Hsc).
  cbn [e flags rflags sched] in *. fold ws in Hrd, Hth, Hw, Hrf, Hsc.
  rewrite Hwalk.
  do 2 eexists. split; [reflexivity|]. cbn [e flags].
  rewrite Hsc, Hfl, Hrf. unfold spec_outranks. fold ws.
  destruct (existsb (spec_outrank (threads k) (nOS_runningThread k)) ws);
    cbn [Z.eqb negb nOS_Sched nOS_isrNestingCounter nOS_lockNestingCounter
         nOS_runningThread nOS_mainThread schedCalls readyThreads threads].
  all: repeat (split; [first [assumption | congruence]|]).
  all: split;
    [ rewrite Hw; apply filter_ext_in; intros u Hu;
      unfold ws; rewrite existsb_woken by exact Hu; apply negb_involutive
    | reflexivity ].
Qed.

Lemma clear_union_bits (m : TCBs) (stored : Z) (ws : list nat) (acc i : Z) :
  0 <= i ->
  Z.testbit (fold_left (spec_clear_step m stored) ws acc) i =
    Z.testbit acc i
    || existsb (fun t => spec_clear_on_exit (ctx_opt (context (m t)))
                         && Z.testbit (spec_r m stored t) i) ws.
Proof.
  intros Hi. revert acc. induction ws as [|t ws IH]; intros acc; cbn [fold_left existsb].
  - rewrite orb_false_r. reflexivity.
  - rewrite IH. unfold spec_clear_step at 1.
    destruct (spec_clear_on_exit (ctx_opt (context (m t)))); cbn [andb orb].
    + rewrite Z.lor_spec, orb_assoc. reflexivity.
    + reflexivity.
Qed.

(** C6: one [nOS_FlagSet] first updates the bitmask, then judges every
    thread on the waiting list against the updated bitmask by the ALL/ANY
    rule of [nOS_FlagWait]. A satisfied waiter is woken and its r is
    written into its result slot; an unsatisfied one stays on the list.
    The r of the woken waiters that asked for CLEAR_ON_EXIT are united,
    and the union is cleared from the bitmask once, after the walk, so
    every waiter is judged against the bitmask before the clear.
    [nOS_Sched] is called exactly when some woken thread outranks the
    running thread. *)
Theorem FlagSet_broadcast (k : Kernel) (f : nOS_Flag) (new mask : Z) :
  let stored := Z.lxor (flags f) (Z.land (Z.lxor (flags f) new) mask) in
  let l := waitingList (e f) in
  let m := threads k in
  exists k' f',
    nOS_FlagSet k (Some f) new mask = Some (NOS_OK, k', Some f') /\
    waitingList (e f') = filter (fun t => spec_r m stored t =? 0) l /\
    readyThreads k' =
      readyThreads k ++ filter (fun t => negb (spec_r m stored t =? 0)) l /\
    (forall t, In t l -> spec_r m stored t <> 0 ->
       threads k' t = spec_wake (m t) (spec_r m stored t)) /\
    (forall t, ~ (In t l /\ spec_r m stored t <> 0) -> threads k' t = m t) /\
    flags f' =
      Z.land stored (uint_not UINT_BITS (spec_clear_union m stored l)) /\
    (forall i, 0 <= i ->
       (Z.testbit (spec_clear_union m stored l) i = true <->
        exists t, In t l /\ spec_r m stored t <> 0 /\
                  spec_clear_on_exit (ctx_opt (context (m t))) = true /\
                  Z.testbit (spec_r m stored t) i = true)) /\
    (schedCalls k' = S (schedCalls k) <->
       exists t, In t l /\ spec_r m stored t <> 0 /\
                 prio (m (nOS_runningThread k)) < prio (m t)) /\
    (schedCalls k' = schedCalls k \/ schedCalls k' = S (schedCalls k)).
Proof.
  intros stored l m.
  destruct (FlagSet_spec k f new mask)
    as (k' & f' & Hcall & _ & _ & _ & _ & Hs & Hrd & Hth & Hw & Hfl).
  cbv zeta in *. fold stored l m in Hs, Hrd, Hth, Hw, Hfl.
  exists k', f'. split; [exact Hcall|]. split; [exact Hw|].
  split; [exact Hrd|].
  split.
  { intros t Hin Hr. rewrite Hth, existsb_in; [reflexivity|].
    apply In_woken; auto. }
  split.
  { intros t Hn. rewrite Hth, existsb_notin; [reflexivity|].
    rewrite In_woken. exact Hn. }
  split; [exact Hfl|].
  split.
  { intros i Hi. unfold spec_clear_union. rewrite clear_union_bits by exact Hi.
    rewrite Z.bits_0. cbn [orb]. rewrite existsb_exists. split.
    - intros [t [Ht Hb]]. apply In_woken in Ht. apply andb_true_iff in Hb.
      exists t. tauto.
    - intros [t [Hin [Hr [Hc Hb]]]]. exists t. split; [apply In_woken; auto|].
      rewrite Hc, Hb. reflexivity. }
  assert (Hex : spec_outranks m (nOS_runningThread k) stored l = true <->
                exists t, In t l /\ spec_r m stored t <> 0 /\
                          prio (m (nOS_runningThread k)) < prio (m t)).
  { unfold spec_outranks. rewrite existsb_exists. split.
    - intros [t [Ht Hp]]. apply In_woken in Ht. apply Z.ltb_lt in Hp.
      exists t. tauto.
    - intros [t [Hin [Hr Hp]]]. exists t. split; [apply In_woken; auto|].
      apply Z.ltb_lt. exact Hp. }
  rewrite Hs.
  destruct (spec_outranks m (nOS_runningThread k) stored l).
  - split; [|right; reflexivity]. split; [intros _; apply Hex; reflexivity|auto].
  - split; [|left; reflexivity]. split; [intros H; exfalso; lia|].
    intros H. apply Hex in H. discriminate.
Qed.

Lemma uint_bits_nonneg (w x : Z) : uint w x -> 0 <= w.
Proof.
  unfold uint. intros [H0 H1]. destruct (Z.lt_ge_cases w 0) as [Hn|Hn]; [|exact Hn].
  rewrite Z.pow_neg_r in H1 by exact Hn. lia.
Qed.

Lemma uint_high_bit (w x i : Z) : uint w x -> w <= i -> Z.testbit x i = false.
Proof.
  intros Hx Hi. pose proof (uint_bits_nonneg w x Hx) as Hw.
  rewrite <- (Z.mod_small x (2 ^ w)) by exact Hx.
  apply Z.mod_pow2_bits_high. lia.
Qed.

Lemma uint_not_bit (w x i : Z) :
  0 <= w -> 0 <= i ->
  Z.testbit (uint_not w x) i = (i <? w) && negb (Z.testbit x i).
Proof.
  intros Hw Hi. unfold uint_not. destruct (i <? w) eqn:Hlt.
  - apply Z.ltb_lt in Hlt. rewrite Z.mod_pow2_bits_low by lia.
    rewrite Z.lnot_spec by exact Hi. reflexivity.
  - apply Z.ltb_ge in Hlt. apply Z.mod_pow2_bits_high. lia.
Qed.

Lemma update_bit (stored new mask i : Z) :
  Z.testbit (Z.lxor stored (Z.land (Z.lxor stored new) mask)) i =
    if Z.testbit mask i then Z.testbit new i else Z.testbit stored i.
Proof.
  rewrite Z.lxor_spec, Z.land_spec, Z.lxor_spec.
  destruct (Z.testbit mask i), (Z.testbit stored i), (Z.testbit new i);
    reflexivity.
Qed.

(** C5, as amended: [nOS_FlagSet] first updates the bitmask to
    flags XOR ((flags XOR newFlags) AND mask), which is
    (flags AND NOT mask) OR (newFlags AND mask): in the updated bitmask a
    bit inside [mask] is the bit of [newFlags] and a bit outside [mask] is
    as it was. The bitmask the call stores is the updated one less the
    clear-on-exit union of the waiters this call wakes, so a bit of that
    union is 0 afterwards, inside [mask] or outside, and every other bit
    is as in the updated bitmask. With nobody waiting the call stores the
    updated bitmask. *)
Theorem FlagSet_update (k : Kernel) (f : nOS_Flag) (new mask : Z) :
  uint UINT_BITS (flags f) -> uint UINT_BITS new ->
  let stored := Z.lxor (flags f) (Z.land (Z.lxor (flags f) new) mask) in
  let cleared := spec_clear_union (threads k) stored (waitingList (e f)) in
  stored = Z.lor (Z.land (flags f) (uint_not UINT_BITS mask)) (Z.land new mask) /\
  (forall i, 0 <= i ->
     Z.testbit stored i =
       if Z.testbit mask i then Z.testbit new i else Z.testbit (flags f) i) /\
  exists k' f',
    nOS_FlagSet k (Some f) new mask = Some (NOS_OK, k', Some f') /\
    flags f' = Z.land stored (uint_not UINT_BITS cleared) /\
    (forall i, 0 <= i -> Z.testbit cleared i = false ->
       Z.testbit (flags f') i = Z.testbit stored i) /\
    (forall i, 0 <= i -> Z.testbit cleared i = true ->
       Z.testbit (flags f') i = false) /\
    (waitingList (e f) = [] -> flags f' = stored).
Proof.
  intros Hf Hn stored cleared.
  pose proof (uint_bits_nonneg _ _ Hf) as Hw.
  assert (Hhigh : forall i, UINT_BITS <= i -> Z.testbit stored i = false).
  { intros i Hi. unfold stored. rewrite update_bit.
    rewrite (uint_high_bit _ _ _ Hf Hi), (uint_high_bit _ _ _ Hn Hi).
    destruct (Z.testbit mask i); reflexivity. }
  assert (Hclr : forall c i, 0 <= i -> Z.testbit c i = false ->
            Z.testbit (Z.land stored (uint_not UINT_BITS c)) i = Z.testbit stored i).
  { intros c i Hi Hc. rewrite Z.land_spec, uint_not_bit by assumption.
    rewrite Hc. cbn [negb]. rewrite andb_true_r.
    destruct (i <? UINT_BITS) eqn:Hlt; [apply andb_true_r|].
    apply Z.ltb_ge in Hlt. rewrite (Hhigh i Hlt). reflexivity. }
  split.
  { apply Z.bits_inj'. intros i Hi. unfold stored. rewrite update_bit.
    rewrite Z.lor_spec, !Z.land_spec, uint_not_bit by assumption.
    destruct (i <? UINT_BITS) eqn:Hlt.
    - destruct (Z.testbit mask i), (Z.testbit (flags f) i), (Z.testbit new i);
        reflexivity.
    - apply Z.ltb_ge in Hlt.
      rewrite (uint_high_bit _ _ _ Hf Hlt), (uint_high_bit _ _ _ Hn Hlt).
      destruct (Z.testbit mask i); reflexivity. }
  split; [intros i _; apply update_bit|].
  destruct (FlagSet_spec k f new mask)
    as (k' & f' & Hcall & _ & _ & _ & _ & _ & _ & _ & _ & Hfl).
  cbv zeta in Hfl. fold stored in Hfl. fold cleared in Hfl.
  exists k', f'. split; [exact Hcall|]. split; [exact Hfl|].
  split; [intros i Hi Hc; rewrite Hfl; apply Hclr; assumption|].
  split.
  { intros i Hi Hc. rewrite Hfl, Z.land_spec, uint_not_bit by assumption.
    rewrite Hc. cbn [negb]. rewrite andb_false_r. apply andb_false_r. }
  intros Hnil. rewrite Hfl. apply Z.bits_inj'. intros i Hi. apply Hclr; [exact Hi|].
  unfold cleared, spec_clear_union. rewrite Hnil. cbn. apply Z.bits_0.
Qed.

Lemma awoken_subset (opt stored wanted : Z) :
  Z.land stored (spec_awoken opt stored wanted) = spec_awoken opt stored wanted.
Proof.
  unfold spec_awoken.
  destruct (spec_wait_all opt && negb (Z.land stored wanted =? wanted)).
  - apply Z.land_0_r.
  - rewrite Z.land_assoc, Z.land_diag. reflexivity.
Qed.

(** The deferred path: the r a CLEAR_ON_EXIT waiter is woken with is
    cleared from the bitmask by the [nOS_FlagSet] that wakes it. *)
Lemma FlagSet_clears_on_exit (k : Kernel) (f : nOS_Flag) (new mask : Z) (t : nat) :
  uint UINT_BITS (flags f) ->
  let stored := Z.lxor (flags f) (Z.land (Z.lxor (flags f) new) mask) in
  In t (waitingList (e f)) ->
  spec_r (threads k) stored t <> 0 ->
  spec_clear_on_exit (ctx_opt (context (threads k t))) = true ->
  exists k' f',
    nOS_FlagSet k (Some f) new mask = Some (NOS_OK, k', Some f') /\
    ctx_rflags (context (threads k' t)) = spec_r (threads k) stored t /\
    Z.land (flags f') (spec_r (threads k) stored t) = 0.
Proof.
  intros Hf stored Hin Hr Hc.
  pose proof (uint_bits_nonneg _ _ Hf) as Hw.
  destruct (FlagSet_spec k f new mask)
    as (k' & f' & Hcall & _ & _ & _ & _ & _ & _ & Hth & _ & Hfl).
  cbv zeta in *. fold stored in Hth, Hfl.
  assert (Hwoken : In t (spec_woken (threads k) stored (waitingList (e f))))
    by (apply In_woken; auto).
  exists k', f'. split; [exact Hcall|].
  split; [rewrite Hth, existsb_in by exact Hwoken; reflexivity|].
  apply Z.bits_inj'. intros i Hi. rewrite Z.bits_0, Z.land_spec, Hfl.
  rewrite Z.land_spec, uint_not_bit by assumption.
  destruct (Z.testbit (spec_r (threads k) stored t) i) eqn:Hb;
    [|apply andb_false_r].
  assert (Hu : Z.testbit
                 (spec_clear_union (threads k) stored (waitingList (e f))) i
               = true).
  { unfold spec_clear_union. rewrite clear_union_bits by exact Hi.
    rewrite Z.bits_0. cbn [orb]. apply existsb_exists. exists t.
    split; [exact Hwoken|]. rewrite Hc, Hb. reflexivity. }
  rewrite Hu. cbn [negb]. rewrite !andb_false_r. reflexivity.
Qed.

(** C7, where the code departs from it: on the immediate path
    [nOS_FlagWait] returns [NOS_OK] with r and leaves the stored bitmask
    as it was, CLEAR_ON_EXIT or not, so every bit of r is still set. *)
Theorem FlagWait_immediate_no_clear (k : Kernel) (f : nOS_Flag)
  (opt wanted : Z) (res : ptr Z) (tout : Z) :
  legal k tout ->
  spec_clear_on_exit opt = true ->
  spec_awoken opt (flags f) wanted <> 0 ->
  exists f',
    nOS_FlagWait k (Some f) opt wanted res tout =
      Some (Returns (NOS_OK,
                     option_map (fun _ => spec_awoken opt (flags f) wanted) res),
            k, Some f') /\
    flags f' = flags f /\
    Z.land (flags f') (spec_awoken opt (flags f) wanted)
      = spec_awoken opt (flags f) wanted.
Proof.
  intros Hlegal _ Hr. exists f.
  rewrite (FlagWait_valid _ _ _ _ _ _ Hlegal). cbv zeta.
  apply Z.eqb_neq in Hr. rewrite Hr. cbn [negb nOS_Error_eqb].
  split; [destruct res; reflexivity|]. split; [reflexivity|].
  apply awoken_subset.
Qed.

(** C8: [nOS_SemTake] and [nOS_FlagWait] check, in this order and each
    before anything is changed: the object pointer ([NOS_E_NULL], in a
    build with [NOS_SAFE > 0]), the interrupt nesting ([NOS_E_ISR]), the
    scheduler lock ([NOS_E_LOCKED]), and the idle thread with a nonzero
    timeout ([NOS_E_IDLE]). On each of these returns the kernel, the
    object and the caller's result variable are as before. The idle
    thread with [tout = 0] passes the idle check. *)
Theorem legality_checks (k : Kernel) (s : nOS_Sem) (f : nOS_Flag)
  (opt wanted : Z) (res : ptr Z) (tout : Z) :
  (0 < NOS_SAFE ->
     nOS_SemTake k None tout = Some (Returns NOS_E_NULL, k, None) /\
     nOS_FlagWait k None opt wanted res tout =
       Some (Returns (NOS_E_NULL, res), k, None)) /\
  (0 < nOS_isrNestingCounter k ->
     nOS_SemTake k (Some s) tout = Some (Returns NOS_E_ISR, k, Some s) /\
     nOS_FlagWait k (Some f) opt wanted res tout =
       Some (Returns (NOS_E_ISR, res), k, Some f)) /\
  (nOS_isrNestingCounter k <= 0 -> 0 < nOS_lockNestingCounter k ->
     nOS_SemTake k (Some s) tout = Some (Returns NOS_E_LOCKED, k, Some s) /\
     nOS_FlagWait k (Some f) opt wanted res tout =
       Some (Returns (NOS_E_LOCKED, res), k, Some f)) /\
  (nOS_isrNestingCounter k <= 0 -> nOS_lockNestingCounter k <= 0 ->
   nOS_runningThread k = nOS_mainThread k -> 0 < tout ->
     nOS_SemTake k (Some s) tout = Some (Returns NOS_E_IDLE, k, Some s) /\
     nOS_FlagWait k (Some f) opt wanted res tout =
       Some (Returns (NOS_E_IDLE, res), k, Some f)) /\
  (nOS_isrNestingCounter k <= 0 -> nOS_lockNestingCounter k <= 0 ->
   nOS_runningThread k = nOS_mainThread k -> tout = 0 ->
     (exists err s',
        nOS_SemTake k (Some s) tout = Some (Returns err, k, Some s') /\
        (err = NOS_OK \/ err = NOS_E_AGAIN)) /\
     (exists err res',
        nOS_FlagWait k (Some f) opt wanted res tout =
          Some (Returns (err, res'), k, Some f) /\
        (err = NOS_OK \/ err = NOS_E_AGAIN))).
Proof.
  unfold nOS_SemTake, nOS_FlagWait.
  split; [|split; [|split; [|split]]].
  - intros Hsafe. apply Z.ltb_lt in Hsafe. rewrite Hsafe. split; reflexivity.
  - intros Hisr. apply Z.ltb_lt in Hisr. rewrite Hisr, !andb_false_r.
    split; reflexivity.
  - intros Hisr Hlock. apply Z.ltb_ge in Hisr. apply Z.ltb_lt in Hlock.
    rewrite Hisr, Hlock, !andb_false_r. split; reflexivity.
  - intros Hisr Hlock Hidle Ht. apply Z.ltb_ge in Hisr. apply Z.ltb_ge in Hlock.
    apply Z.ltb_lt in Ht. apply Nat.eqb_eq in Hidle.
    rewrite Hisr, Hlock, Hidle, Ht, !andb_false_r. split; reflexivity.
  - intros Hisr Hlock Hidle Ht. apply Z.ltb_ge in Hisr. apply Z.ltb_ge in Hlock.
    subst tout. rewrite Hisr, Hlock, !andb_false_r.
    cbn [Z.ltb Z.compare]. split.
    + destruct (0 <? count s); do 2 eexists; split; try reflexivity; auto.
    + rewrite FlagWait_r.
      destruct (negb (spec_awoken opt (flags f) wanted =? NOS_FLAG_NONE));
        do 2 eexists; split; try reflexivity; auto.
Qed.

(** C9, where the code departs from it: in a build with [NOS_SAFE > 0],
    [nOS_FlagCreate] answers a null group with [NOS_E_FULL], which is not
    the [NOS_E_NULL] that [nOS_SemCreate] answers a null semaphore with.
    On a valid group it sets up an empty waiting list and the bitmask and
    returns [NOS_OK]. *)
Theorem FlagCreate_null_code (f : nOS_Flag) (flags0 count0 max0 : Z) :
  0 < NOS_SAFE ->
  nOS_FlagCreate None flags0 = Some (NOS_E_FULL, None) /\
  nOS_SemCreate None count0 max0 = Some (NOS_E_NULL, None) /\
  NOS_E_FULL <> NOS_E_NULL /\
  nOS_FlagCreate (Some f) flags0 =
    Some (NOS_OK, Some {| e := {| waitingList := [] |}; flags := flags0 |}).
Proof.
  intros Hsafe. apply Z.ltb_lt in Hsafe.
  unfold nOS_FlagCreate, nOS_SemCreate. rewrite Hsafe.
  repeat split. discriminate.
Qed.

(** C10: [nOS_FlagWait] writes through [res] only when it returns
    [NOS_OK]: on every other return, at once or after a wait, the
    caller's variable is as before. A null [res] is accepted: when the
    condition is met the call returns [NOS_OK] and drops the bitmask. *)
Theorem FlagWait_result_pointer (k : Kernel) (f : nOS_Flag) (opt wanted : Z)
  (res : ptr Z) (tout : Z) :
  (exists c k' f',
     nOS_FlagWait k (Some f) opt wanted res tout = Some (c, k', Some f') /\
     match c with
     | Returns (err, res') =>
         (err <> NOS_OK -> res' = res) /\
         (err = NOS_OK ->
          res' = option_map (fun _ => spec_awoken opt (flags f) wanted) res)
     | Suspends resume =>
         forall status r,
           fst (resume (status, r)) = status /\
           (status <> NOS_OK -> snd (resume (status, r)) = res) /\
           (status = NOS_OK ->
            snd (resume (status, r)) = option_map (fun _ => r) res)
     end) /\
  (0 < NOS_SAFE ->
     nOS_FlagWait k None opt wanted res tout =
       Some (Returns (NOS_E_NULL, res), k, None)) /\
  (legal k tout -> spec_awoken opt (flags f) wanted <> 0 ->
     nOS_FlagWait k (Some f) opt wanted None tout =
       Some (Returns (NOS_OK, None), k, Some f)).
Proof.
  split; [|split].
  - unfold nOS_FlagWait. rewrite andb_false_r, FlagWait_r.
    destruct (0 <? nOS_isrNestingCounter k);
      [do 3 eexists; split; [reflexivity|]; split; [auto|discriminate]|].
    destruct (0 <? nOS_lockNestingCounter k);
      [do 3 eexists; split; [reflexivity|]; split; [auto|discriminate]|].
    destruct (Nat.eqb (nOS_runningThread k) (nOS_mainThread k) && (0 <? tout));
      [do 3 eexists; split; [reflexivity|]; split; [auto|discriminate]|].
    destruct (spec_awoken opt (flags f) wanted =? NOS_FLAG_NONE); cbn [negb].
    + destruct (0 <? tout).
      * cbn [nOS_EventWait]. do 3 eexists. split; [reflexivity|].
        intros status r. cbn [fst snd]. split; [reflexivity|].
        destruct status; cbn [nOS_Error_eqb]; split;
          solve [ intros _; reflexivity
                | intros H; congruence
                | intros _; destruct res; reflexivity ].
      * do 3 eexists. split; [reflexivity|].
        cbn [nOS_Error_eqb]. split; [auto|discriminate].
    + do 3 eexists. split; [reflexivity|]. cbn [nOS_Error_eqb].
      split; [congruence|]. intros _. destruct res; reflexivity.
  - intros Hsafe. apply Z.ltb_lt in Hsafe. unfold nOS_FlagWait.
    rewrite Hsafe. reflexivity.
  - intros Hlegal Hr. rewrite (FlagWait_valid _ _ _ _ _ _ Hlegal). cbv zeta.
    apply Z.eqb_neq in Hr. rewrite Hr. reflexivity.
Qed.

(** *** sem.c: further properties *)

Lemma SemGive_no_waiters (k : Kernel) (s : nOS_Sem) :
  waitingList (sem_e s) = [] ->
  nOS_SemGive k (Some s) =
    if count s <? max s
    then Some (NOS_OK, k,
               Some {| sem_e := sem_e s; count := incr16 (count s); max := max s |})
    else Some (NOS_E_OVERFLOW, k,
               Some {| sem_e := sem_e s; count := count s; max := max s |}).
Proof.
  intros Hl. unfold nOS_SemGive. rewrite andb_false_r.
  rewrite (EventSignal_none k (sem_e s) Hl). reflexivity.
Qed.

Lemma SemTake_legal (k : Kernel) (s : nOS_Sem) (tout : Z) :
  legal k tout ->
  nOS_SemTake k (Some s) tout =
    if 0 <? count s then
      Some (Returns NOS_OK, k,
            Some {| sem_e := sem_e s; count := decr16 (count s); max := max s |})
    else if 0 <? tout then
      Some (Suspends (fun err => err),
            fst (nOS_EventWait k (sem_e s) NOS_TAKING_SEM tout),
            Some {| sem_e := snd (nOS_EventWait k (sem_e s) NOS_TAKING_SEM tout);
                    count := count s; max := max s |})
    else Some (Returns NOS_E_AGAIN, k, Some s).
Proof.
  intros Hlegal. unfold nOS_SemTake. pass_checks Hlegal. reflexivity.
Qed.

Lemma sem_eta (s : nOS_Sem) :
  {| sem_e := sem_e s; count := count s; max := max s |} = s.
Proof. destruct s; reflexivity. Qed.

(** X1: in a build with [NOS_SAFE > 0], [nOS_SemCreate] on a valid
    pointer returns [NOS_OK] exactly when [max] is not 0 and [count] is at
    most [max]; otherwise it returns [NOS_E_INV_VAL] and leaves the object
    as it found it. *)
Theorem SemCreate_validation (s : nOS_Sem) (count0 max0 : Z) :
  0 < NOS_SAFE ->
  (max0 <> 0 /\ count0 <= max0 ->
     nOS_SemCreate (Some s) count0 max0 =
       Some (NOS_OK,
             Some {| sem_e := {| waitingList := [] |};
                     count := count0; max := max0 |})) /\
  (max0 = 0 \/ max0 < count0 ->
     nOS_SemCreate (Some s) count0 max0 = Some (NOS_E_INV_VAL, Some s)).
Proof.
  intros Hsafe. apply Z.ltb_lt in Hsafe. unfold nOS_SemCreate.
  rewrite Hsafe. cbn [andb is_null]. split.
  - intros [Hm Hc]. apply Z.eqb_neq in Hm. apply Z.ltb_ge in Hc.
    rewrite Hm, Hc. reflexivity.
  - intros [Hm|Hc].
    + apply Z.eqb_eq in Hm. rewrite Hm. reflexivity.
    + apply Z.ltb_lt in Hc. rewrite Hc. destruct (max0 =? 0); reflexivity.
Qed.

Lemma sem_run_repeat (x : Kernel * sem_op) (n : nat) (s : nOS_Sem) :
  sem_run (repeat x (S n)) s = sem_run (repeat x n) (sem_step (fst x) (snd x) s).
Proof. reflexivity. Qed.

(** X2: gives with nobody waiting saturate at [max]: after [n] calls of
    [nOS_SemGive] on a semaphore with an empty waiting list, [count] is
    the smaller of [count + n] and [max], and once [max] is reached the
    next give returns [NOS_E_OVERFLOW] and changes nothing. *)
Theorem SemGive_saturates (k : Kernel) (s : nOS_Sem) (n : nat) :
  waitingList (sem_e s) = [] -> 0 <= count s <= max s -> uint16 (max s) ->
  count (sem_run (repeat (k, OpGive) n) s)
    = Z.min (count s + Z.of_nat n) (max s) /\
  max (sem_run (repeat (k, OpGive) n) s) = max s /\
  sem_e (sem_run (repeat (k, OpGive) n) s) = sem_e s /\
  (max s <= count s + Z.of_nat n ->
     nOS_SemGive k (Some (sem_run (repeat (k, OpGive) n) s))
       = Some (NOS_E_OVERFLOW, k, Some (sem_run (repeat (k, OpGive) n) s))).
Proof.
  revert s. induction n as [|n IH]; intros s Hl Hc Hm.
  - cbn [repeat sem_run fold_left]. rewrite Z.add_0_r.
    split; [lia|]. split; [reflexivity|]. split; [reflexivity|].
    intros Hfull. rewrite (SemGive_no_waiters k s Hl).
    assert (Hb : (count s <? max s) = false) by (apply Z.ltb_ge; lia).
    rewrite Hb, sem_eta. reflexivity.
  - rewrite sem_run_repeat. cbn [fst snd sem_step].
    rewrite (SemGive_no_waiters k s Hl).
    destruct (count s <? max s) eqn:Hlt.
    + apply Z.ltb_lt in Hlt.
      assert (Hi : incr16 (count s) = count s + 1)
        by (apply incr16_small; unfold uint16 in Hm; lia).
      rewrite Hi.
      destruct (IH {| sem_e := sem_e s; count := count s + 1; max := max s |})
        as (H1 & H2 & H3 & H4); cbn [sem_e count max]; try assumption; try lia.
      cbn [sem_e count max] in *.
      split; [rewrite H1; lia|]. split; [exact H2|]. split; [exact H3|].
      intros Hfull. apply H4. lia.
    + apply Z.ltb_ge in Hlt. rewrite sem_eta.
      destruct (IH s Hl Hc Hm) as (H1 & H2 & H3 & H4).
      split; [rewrite H1; lia|]. split; [exact H2|]. split; [exact H3|].
      intros _. apply H4. lia.
Qed.

(** X3: non-blocking takes drain the counter and stop at 0: after [n]
    calls of [nOS_SemTake] with [tout = 0] by a caller that passes the
    context checks, [count] is the larger of [count - n] and 0, the
    waiting list and [max] are untouched, and once 0 is reached the next
    such take returns [NOS_E_AGAIN]. *)
Theorem SemTake_drains (k : Kernel) (s : nOS_Sem) (n : nat) :
  legal k 0 -> uint16 (count s) ->
  count (sem_run (repeat (k, OpTake 0) n) s)
    = Z.max (count s - Z.of_nat n) 0 /\
  max (sem_run (repeat (k, OpTake 0) n) s) = max s /\
  sem_e (sem_run (repeat (k, OpTake 0) n) s) = sem_e s /\
  (count s <= Z.of_nat n ->
     nOS_SemTake k (Some (sem_run (repeat (k, OpTake 0) n) s)) 0
       = Some (Returns NOS_E_AGAIN, k,
               Some (sem_run (repeat (k, OpTake 0) n) s))).
Proof.
  intros Hlegal. revert s. induction n as [|n IH]; intros s Hc.
  - cbn [repeat sem_run fold_left]. rewrite Z.sub_0_r.
    unfold uint16 in Hc.
    split; [lia|]. split; [reflexivity|]. split; [reflexivity|].
    intros Hz. rewrite (SemTake_legal k s 0 Hlegal).
    assert (Hb : (0 <? count s) = false) by (apply Z.ltb_ge; lia).
    rewrite Hb. reflexivity.
  - rewrite sem_run_repeat. cbn [fst snd sem_step].
    rewrite (SemTake_legal k s 0 Hlegal). unfold uint16 in Hc.
    destruct (0 <? count s) eqn:Hpos.
    + apply Z.ltb_lt in Hpos.
      rewrite decr16_small by lia.
      destruct (IH {| sem_e := sem_e s; count := count s - 1; max := max s |})
        as (H1 & H2 & H3 & H4);
        [unfold uint16; cbn [count]; lia|].
      cbn [sem_e count max] in *.
      split; [rewrite H1; lia|]. split; [exact H2|]. split; [exact H3|].
      intros Hz. apply H4. lia.
    + apply Z.ltb_ge in Hpos. cbn [Z.ltb Z.compare].
      destruct (IH s) as (H1 & H2 & H3 & H4); [unfold uint16; lia|].
      split; [rewrite H1; lia|]. split; [exact H2|]. split; [exact H3|].
      intros _. apply H4. lia.
Qed.

(** X4: with nobody waiting, give and take undo each other. Below [max],
    a give followed by a take of a caller that passes the context checks
    leaves the semaphore as it was; above 0, so does such a take followed
    by a give. Neither call touches the kernel state. *)
Theorem SemGive_SemTake_round_trip (kg kt : Kernel) (s : nOS_Sem) (tout : Z) :
  waitingList (sem_e s) = [] -> uint16 (count s) -> uint16 (max s) ->
  legal kt tout ->
  (count s < max s ->
     exists s1,
       nOS_SemGive kg (Some s) = Some (NOS_OK, kg, Some s1) /\
       nOS_SemTake kt (Some s1) tout = Some (Returns NOS_OK, kt, Some s)) /\
  (0 < count s <= max s ->
     exists s1,
       nOS_SemTake kt (Some s) tout = Some (Returns NOS_OK, kt, Some s1) /\
       nOS_SemGive kg (Some s1) = Some (NOS_OK, kg, Some s)).
Proof.
  intros Hl Hc Hm Hlegal. unfold uint16 in *. split.
  - intros Hlt. rewrite (SemGive_no_waiters kg s Hl).
    apply Z.ltb_lt in Hlt as Hb. rewrite Hb.
    eexists. split; [reflexivity|].
    rewrite (SemTake_legal kt _ tout Hlegal). cbn [count sem_e max].
    rewrite incr16_small by lia.
    assert (Hp : (0 <? count s + 1) = true) by (apply Z.ltb_lt; lia).
    rewrite Hp, decr16_small by lia.
    replace (count s + 1 - 1) with (count s) by lia. rewrite sem_eta.
    reflexivity.
  - intros [Hpos Hle]. rewrite (SemTake_legal kt s tout Hlegal).
    apply Z.ltb_lt in Hpos as Hb. rewrite Hb.
    eexists. split; [reflexivity|].
    rewrite SemGive_no_waiters by exact Hl. cbn [count sem_e max].
    rewrite decr16_small by lia.
    assert (Hp : (count s - 1 <? max s) = true) by (apply Z.ltb_lt; lia).
    rewrite Hp, incr16_small by lia.
    replace (count s - 1 + 1) with (count s) by lia. rewrite sem_eta.
    reflexivity.
Qed.

(** X5: a give after a blocked take hands the unit over. A thread that
    passes the context checks and takes an empty semaphore with nobody
    waiting and [tout > 0] is suspended on the list; the next give, by
    whoever runs then, takes it off the list, readies it and leaves
    [count] at 0, and calls [nOS_Sched] exactly when the blocked thread
    outranks the giver. *)
Theorem SemTake_SemGive_handover (k : Kernel) (s : nOS_Sem) (tout : Z)
  (giver : nat) :
  legal k tout -> 0 < tout -> count s = 0 -> waitingList (sem_e s) = [] ->
  exists resume k1 s1 k2 s2,
    nOS_SemTake k (Some s) tout = Some (Suspends resume, k1, Some s1) /\
    waitingList (sem_e s1) = [nOS_runningThread k] /\
    nOS_SemGive (dispatch k1 giver) (Some s1) = Some (NOS_OK, k2, Some s2) /\
    count s2 = 0 /\ max s2 = max s /\ waitingList (sem_e s2) = [] /\
    readyThreads k2 = readyThreads k ++ [nOS_runningThread k] /\
    state (threads k2 (nOS_runningThread k)) = NOS_READY /\
    resume NOS_OK = NOS_OK /\
    (schedCalls k2 = S (schedCalls k) <->
       prio (threads k giver) < prio (threads k (nOS_runningThread k))) /\
    (schedCalls k2 = schedCalls k \/ schedCalls k2 = S (schedCalls k)).
Proof.
  intros Hlegal Ht Hc Hl.
  rewrite (SemTake_legal k s tout Hlegal). rewrite Hc.
  apply Z.ltb_lt in Ht as Hb. rewrite Hb. cbn [Z.ltb Z.compare].
  cbn [nOS_EventWait fst snd]. rewrite Hl. cbn [app].
  do 5 eexists. split; [reflexivity|]. split; [reflexivity|].
  unfold nOS_SemGive, nOS_EventSignal. rewrite andb_false_r.
  cbn [sem_e waitingList highest SignalThread threads dispatch with_threads
       with_ready readyThreads nOS_runningThread unlink filter count max].
  rewrite Nat.eqb_refl. cbn [negb].
  rewrite !store_same. cbn [state set_state set_timeout prio].
  rewrite Z.eqb_refl. cbn [andb].
  rewrite (store_prio _ (nOS_runningThread k) giver) by (rewrite store_same; reflexivity).
  rewrite (store_prio _ (nOS_runningThread k) giver) by reflexivity.
  split; [reflexivity|].
  destruct (prio (threads k giver) <? prio (threads k (nOS_runningThread k)))
    eqn:Hp;
    cbn [nOS_Sched threads readyThreads schedCalls count max sem_e waitingList
         with_ready with_threads dispatch];
    rewrite store_same; cbn [state set_state].
  - apply Z.ltb_lt in Hp. repeat split; auto.
  - apply Z.ltb_ge in Hp. repeat split; auto; lia.
Qed.

(** X6: [nOS_SemGive] asks for no reschedule when the running thread is
    outranked by no thread on the waiting list: [nOS_Sched] is not
    called. *)
Theorem SemGive_no_preemption (k : Kernel) (s : nOS_Sem) :
  (forall t, In t (waitingList (sem_e s)) ->
     prio (threads k t) <= prio (threads k (nOS_runningThread k))) ->
  exists err k' s',
    nOS_SemGive k (Some s) = Some (err, k', Some s') /\
    schedCalls k' = schedCalls k.
Proof.
  intros Hall. unfold nOS_SemGive, nOS_EventSignal. rewrite andb_false_r.
  destruct (highest (threads k) (waitingList (sem_e s))) as [t|] eqn:Ht.
  - pose proof (Hall t (highest_In _ _ _ Ht)) as Hle.
    cbn [SignalThread threads with_ready with_threads nOS_runningThread
         readyThreads].
    rewrite (store_prio _ t (nOS_runningThread k)) by reflexivity.
    rewrite store_same. cbn [prio set_state].
    assert (Hb : (prio (threads k (nOS_runningThread k)) <? prio (threads k t))
                 = false) by (apply Z.ltb_ge; exact Hle).
    rewrite Hb, andb_false_r. do 3 eexists. split; reflexivity.
  - destruct (count s <? max s); do 3 eexists; split; reflexivity.
Qed.

(** X7: a give is never refused for its context. On a valid semaphore
    [nOS_SemGive] returns [NOS_OK] or [NOS_E_OVERFLOW], whatever the
    interrupt nesting, the scheduler lock and the running thread are, and
    it never changes [max] nor raises [count] by more than one. *)
Theorem SemGive_any_context (k : Kernel) (s : nOS_Sem) :
  uint16 (count s) -> uint16 (max s) ->
  exists err k' s',
    nOS_SemGive k (Some s) = Some (err, k', Some s') /\
    (err = NOS_OK \/ err = NOS_E_OVERFLOW) /\
    max s' = max s /\
    (count s' = count s \/ count s' = count s + 1) /\
    (err = NOS_E_OVERFLOW -> waitingList (sem_e s) = [] /\ max s <= count s).
Proof.
  intros Hc Hm. unfold uint16 in *.
  unfold nOS_SemGive, nOS_EventSignal. rewrite andb_false_r.
  destruct (highest (threads k) (waitingList (sem_e s))) as [t|] eqn:Ht.
  - cbn [SignalThread]. do 3 eexists. split; [reflexivity|].
    cbn [count max]. repeat split; auto; discriminate.
  - apply highest_None in Ht.
    destruct (count s <? max s) eqn:Hlt.
    + apply Z.ltb_lt in Hlt. do 3 eexists. split; [reflexivity|].
      cbn [count max]. rewrite incr16_small by lia.
      repeat split; auto; discriminate.
    + apply Z.ltb_ge in Hlt. do 3 eexists. split; [reflexivity|].
      cbn [count max]. repeat split; auto.
Qed.

(** *** flag.c: further properties *)

Lemma uint_from_bits (w x : Z) :
  0 <= w -> (forall i, w <= i -> Z.testbit x i = false) -> uint w x.
Proof.
  intros Hw Hhigh.
  assert (Hx : x = x mod 2 ^ w).
  { apply Z.bits_inj'. intros i Hi. destruct (Z.lt_ge_cases i w) as [Hlt|Hge].
    - rewrite Z.mod_pow2_bits_low by lia. reflexivity.
    - rewrite Z.mod_pow2_bits_high by lia. apply Hhigh. exact Hge. }
  unfold uint. rewrite Hx. apply Z.mod_pos_bound. apply Z.pow_pos_nonneg; lia.
Qed.

Lemma masked_update_bit (stored new mask i : Z) :
  Z.testbit (masked_update stored new mask) i =
    if Z.testbit mask i then Z.testbit new i else Z.testbit stored i.
Proof. apply update_bit. Qed.

Lemma masked_update_uint (w stored new mask : Z) :
  uint w stored -> uint w new -> uint w (masked_update stored new mask).
Proof.
  intros Hs Hn. apply uint_from_bits; [exact (uint_bits_nonneg _ _ Hs)|].
  intros i Hi. rewrite masked_update_bit.
  rewrite (uint_high_bit _ _ _ Hs Hi), (uint_high_bit _ _ _ Hn Hi).
  destruct (Z.testbit mask i); reflexivity.
Qed.

Lemma land_uint_not_0 (w x : Z) : uint w x -> Z.land x (uint_not w 0) = x.
Proof.
  intros Hx. pose proof (uint_bits_nonneg _ _ Hx) as Hw.
  apply Z.bits_inj'. intros i Hi.
  rewrite Z.land_spec, uint_not_bit by assumption.
  rewrite Z.bits_0. cbn [negb]. rewrite andb_true_r.
  destruct (i <? w) eqn:Hlt; [apply andb_true_r|].
  apply Z.ltb_ge in Hlt. rewrite (uint_high_bit _ _ _ Hx Hlt). reflexivity.
Qed.

Lemma filter_none {A : Type} (p : A -> bool) (l : list A) :
  (forall x, In x l -> p x = false) -> filter p l = [].
Proof.
  induction l as [|a l IH]; intros H; cbn [filter]; [reflexivity|].
  rewrite (H a) by (left; reflexivity). apply IH. intros x Hx. apply H.
  right; exact Hx.
Qed.

Lemma filter_all {A : Type} (p : A -> bool) (l : list A) :
  (forall x, In x l -> p x = true) -> filter p l = l.
Proof.
  induction l as [|a l IH]; intros H; cbn [filter]; [reflexivity|].
  rewrite (H a) by (left; reflexivity). f_equal. apply IH. intros x Hx.
  apply H. right; exact Hx.
Qed.

Lemma FlagSet_no_waiters (k : Kernel) (f : nOS_Flag) (new mask : Z) :
  waitingList (e f) = [] -> uint UINT_BITS (flags f) -> uint UINT_BITS new ->
  nOS_FlagSet k (Some f) new mask =
    Some (NOS_OK, k,
          Some {| e := e f; flags := masked_update (flags f) new mask |}).
Proof.
  intros Hl Hf Hn. unfold nOS_FlagSet. rewrite andb_false_r.
  cbn [e flags]. rewrite Hl.
  cbn [nOS_ListWalk fold_left e flags rflags sched Z.eqb negb].
  change NOS_FLAG_NONE with 0.
  fold (masked_update (flags f) new mask).
  rewrite land_uint_not_0 by (apply masked_update_uint; assumption).
  reflexivity.
Qed.

(** X8: with nobody waiting, [nOS_FlagSet] leaves the kernel state alone
    and is idempotent: the same call made again stores the same bitmask. *)
Theorem FlagSet_idempotent (k : Kernel) (f : nOS_Flag) (new mask : Z) :
  waitingList (e f) = [] -> uint UINT_BITS (flags f) -> uint UINT_BITS new ->
  exists f1,
    nOS_FlagSet k (Some f) new mask = Some (NOS_OK, k, Some f1) /\
    nOS_FlagSet k (Some f1) new mask = Some (NOS_OK, k, Some f1).
Proof.
  intros Hl Hf Hn. rewrite (FlagSet_no_waiters k f new mask Hl Hf Hn).
  eexists. split; [reflexivity|].
  rewrite FlagSet_no_waiters;
    [|exact Hl|apply masked_update_uint; assumption|exact Hn].
  cbn [e flags]. do 4 f_equal.
  apply Z.bits_inj'. intros i Hi. rewrite !masked_update_bit.
  destruct (Z.testbit mask i); reflexivity.
Qed.

(** X9: with nobody waiting, two calls of [nOS_FlagSet] in a row amount
    to one: Set(a, m1) followed by Set(b, m2) stores what a single Set
    stores whose mask is m1 OR m2 and whose value is b inside m2 and a
    elsewhere. *)
Theorem FlagSet_composes (k : Kernel) (f : nOS_Flag) (a m1 b m2 : Z) :
  waitingList (e f) = [] ->
  uint UINT_BITS (flags f) -> uint UINT_BITS a -> uint UINT_BITS b ->
  exists f1 f2,
    nOS_FlagSet k (Some f) a m1 = Some (NOS_OK, k, Some f1) /\
    nOS_FlagSet k (Some f1) b m2 = Some (NOS_OK, k, Some f2) /\
    nOS_FlagSet k (Some f) (masked_update a b m2) (Z.lor m1 m2)
      = Some (NOS_OK, k, Some f2).
Proof.
  intros Hl Hf Ha Hb. rewrite (FlagSet_no_waiters k f a m1 Hl Hf Ha).
  do 2 eexists. split; [reflexivity|].
  rewrite FlagSet_no_waiters;
    [|exact Hl|apply masked_update_uint; assumption|exact Hb].
  split; [reflexivity|].
  rewrite FlagSet_no_waiters;
    [|exact Hl|exact Hf|apply masked_update_uint; assumption].
  cbn [e flags]. do 4 f_equal.
  apply Z.bits_inj'. intros i Hi. rewrite !masked_update_bit, Z.lor_spec.
  destruct (Z.testbit m1 i), (Z.testbit m2 i); reflexivity.
Qed.

Lemma spec_woken_none (m : TCBs) (stored : Z) (l : list nat) :
  (forall t, In t l -> spec_r m stored t = 0) -> spec_woken m stored l = [].
Proof.
  intros H. unfold spec_woken. apply filter_none. intros t Ht.
  rewrite (H t Ht). reflexivity.
Qed.

(** X10: a [nOS_FlagSet] that meets the condition of no waiting thread
    wakes nobody: the waiting list, every control block and the ready
    list are as before, [nOS_Sched] is not called, and the stored bitmask
    is the updated one with nothing cleared. *)
Theorem FlagSet_nobody_satisfied (k : Kernel) (f : nOS_Flag) (new mask : Z) :
  uint UINT_BITS (flags f) -> uint UINT_BITS new ->
  (forall t, In t (waitingList (e f)) ->
     spec_r (threads k) (masked_update (flags f) new mask) t = 0) ->
  exists k' f',
    nOS_FlagSet k (Some f) new mask = Some (NOS_OK, k', Some f') /\
    waitingList (e f') = waitingList (e f) /\
    flags f' = masked_update (flags f) new mask /\
    readyThreads k' = readyThreads k /\
    schedCalls k' = schedCalls k /\
    (forall q, threads k' q = threads k q).
Proof.
  intros Hf Hn Hnone.
  destruct (FlagSet_spec k f new mask)
    as (k' & f' & Hcall & _ & _ & _ & _ & Hs & Hrd & Hth & Hw & Hfl).
  cbv zeta in *.
  fold (masked_update (flags f) new mask) in Hs, Hrd, Hth, Hw, Hfl.
  unfold spec_outranks, spec_clear_union in *.
  rewrite (spec_woken_none _ _ _ Hnone) in *.
  cbn [existsb fold_left] in *. rewrite app_nil_r in Hrd.
  exists k', f'. split; [exact Hcall|].
  split.
  { rewrite Hw. apply filter_all. intros t Ht. rewrite (Hnone t Ht).
    reflexivity. }
  split.
  { rewrite Hfl. apply land_uint_not_0. apply masked_update_uint; assumption. }
  auto.
Qed.

(** X11: a wait for no bit at all can never succeed. With [wanted = 0]
    a caller that passes the context checks gets [NOS_E_AGAIN] when
    [tout] is 0, and a thread that waits with [wanted = 0] is left on the
    list, untouched, by every [nOS_FlagSet]. *)
Theorem FlagWait_nothing_wanted (k : Kernel) (f : nOS_Flag) (opt : Z)
  (res : ptr Z) (new mask : Z) (t : nat) :
  (legal k 0 ->
     nOS_FlagWait k (Some f) opt 0 res 0
       = Some (Returns (NOS_E_AGAIN, res), k, Some f)) /\
  (In t (waitingList (e f)) -> ctx_flags (context (threads k t)) = 0 ->
     exists k' f',
       nOS_FlagSet k (Some f) new mask = Some (NOS_OK, k', Some f') /\
       In t (waitingList (e f')) /\
       threads k' t = threads k t /\
       ~ In t (spec_woken (threads k) (masked_update (flags f) new mask)
                 (waitingList (e f)))).
Proof.
  assert (Hzero : forall o stored, spec_awoken o stored 0 = 0).
  { intros o stored. unfold spec_awoken. rewrite Z.land_0_r.
    destruct (spec_wait_all o && negb (0 =? 0)); reflexivity. }
  split.
  - intros Hlegal. rewrite (FlagWait_valid _ _ _ _ _ _ Hlegal). cbv zeta.
    rewrite Hzero. reflexivity.
  - intros Hin Hctx.
    destruct (FlagSet_spec k f new mask)
      as (k' & f' & Hcall & _ & _ & _ & _ & _ & _ & Hth & Hw & _).
    cbv zeta in *.
    fold (masked_update (flags f) new mask) in Hth, Hw.
    assert (Hr : spec_r (threads k) (masked_update (flags f) new mask) t = 0)
      by (unfold spec_r; rewrite Hctx; apply Hzero).
    assert (Hnot : ~ In t (spec_woken (threads k)
                             (masked_update (flags f) new mask)
                             (waitingList (e f)))).
    { rewrite In_woken. intros [_ Hne]. contradiction. }
    exists k', f'. split; [exact Hcall|].
    split; [rewrite Hw; apply filter_In; split; [exact Hin|];
            rewrite Hr; reflexivity|].
    split; [rewrite Hth, existsb_notin by exact Hnot; reflexivity|exact Hnot].
Qed.

Lemma FlagWait_blocks (k : Kernel) (f : nOS_Flag) (opt wanted : Z)
  (res : ptr Z) (tout : Z) :
  legal k tout -> 0 < tout -> spec_awoken opt (flags f) wanted = 0 ->
  nOS_FlagWait k (Some f) opt wanted res tout =
    Some (Suspends
            (fun w =>
               (fst w,
                if nOS_Error_eqb (fst w) NOS_OK
                then (if negb (is_null res) then Some (snd w) else res)
                else res)),
          with_threads k
            (store
               (store (threads k) (nOS_runningThread k)
                  (set_context (threads k (nOS_runningThread k))
                     {| ctx_flags := wanted; ctx_opt := opt; ctx_rflags := 0 |}))
               (nOS_runningThread k)
               (set_timeout
                  (set_state
                     (set_context (threads k (nOS_runningThread k))
                        {| ctx_flags := wanted; ctx_opt := opt; ctx_rflags := 0 |})
                     NOS_WAITING_FLAG)
                  tout)),
          Some {| e := {| waitingList := waitingList (e f) ++ [nOS_runningThread k] |};
                  flags := flags f |}).
Proof.
  intros Hlegal Ht Hr. rewrite (FlagWait_valid _ _ _ _ _ _ Hlegal). cbv zeta.
  rewrite Hr. apply Z.ltb_lt in Ht. rewrite Ht. cbn [Z.eqb negb].
  cbn [nOS_EventWait fst snd threads with_threads nOS_runningThread].
  rewrite store_same. reflexivity.
Qed.

(** X12: when the condition is not met and [tout > 0], [nOS_FlagWait]
    publishes the request of the caller and suspends it: the caller's
    context holds the wanted bits, the options and a result slot at 0,
    the caller is put at the end of the waiting list in state
    [NOS_WAITING_FLAG] with its timeout, and neither the stored bitmask,
    nor another thread, nor the caller's priority is touched. *)
Theorem FlagWait_suspends (k : Kernel) (f : nOS_Flag) (opt wanted : Z)
  (res : ptr Z) (tout : Z) :
  legal k tout -> 0 < tout -> spec_awoken opt (flags f) wanted = 0 ->
  exists resume k1 f1,
    nOS_FlagWait k (Some f) opt wanted res tout
      = Some (Suspends resume, k1, Some f1) /\
    flags f1 = flags f /\
    waitingList (e f1) = waitingList (e f) ++ [nOS_runningThread k] /\
    context (threads k1 (nOS_runningThread k))
      = {| ctx_flags := wanted; ctx_opt := opt; ctx_rflags := 0 |} /\
    state (threads k1 (nOS_runningThread k)) = NOS_WAITING_FLAG /\
    timeout (threads k1 (nOS_runningThread k)) = tout /\
    prio (threads k1 (nOS_runningThread k))
      = prio (threads k (nOS_runningThread k)) /\
    (forall u, u <> nOS_runningThread k -> threads k1 u = threads k u) /\
    readyThreads k1 = readyThreads k /\ schedCalls k1 = schedCalls k.
Proof.
  intros Hlegal Ht Hr. rewrite (FlagWait_blocks _ _ _ _ _ _ Hlegal Ht Hr).
  do 3 eexists. split; [reflexivity|].
  cbn [flags e waitingList threads with_threads readyThreads schedCalls].
  rewrite store_same.
  cbn [context state timeout prio set_timeout set_state set_context].
  repeat split.
  intros u Hu. rewrite !store_other by exact Hu. reflexivity.
Qed.

(** X13: the deferred path end to end. A thread that blocks in
    [nOS_FlagWait] is judged by a later [nOS_FlagSet], made by whoever
    runs then, on the request it published. If the updated bitmask meets
    the request, the thread leaves the waiting list for the ready list,
    r is written into its result slot, and its call, resumed on [NOS_OK],
    returns [NOS_OK] and stores that r through [res]; with CLEAR_ON_EXIT
    the bits of r are gone from the stored bitmask. If the updated
    bitmask does not meet the request, the thread stays on the list. *)
Theorem FlagWait_FlagSet_deferred (k : Kernel) (f : nOS_Flag)
  (opt wanted : Z) (res : ptr Z) (tout : Z) (setter : nat) (new mask : Z) :
  legal k tout -> 0 < tout -> spec_awoken opt (flags f) wanted = 0 ->
  uint UINT_BITS (flags f) ->
  exists resume k1 f1 k2 f2,
    nOS_FlagWait k (Some f) opt wanted res tout
      = Some (Suspends resume, k1, Some f1) /\
    nOS_FlagSet (dispatch k1 setter) (Some f1) new mask
      = Some (NOS_OK, k2, Some f2) /\
    (spec_awoken opt (masked_update (flags f) new mask) wanted <> 0 ->
       In (nOS_runningThread k) (readyThreads k2) /\
       ~ In (nOS_runningThread k) (waitingList (e f2)) /\
       state (threads k2 (nOS_runningThread k)) = NOS_READY /\
       ctx_rflags (context (threads k2 (nOS_runningThread k)))
         = spec_awoken opt (masked_update (flags f) new mask) wanted /\
       resume (NOS_OK, ctx_rflags (context (threads k2 (nOS_runningThread k))))
         = (NOS_OK,
            option_map
              (fun _ => spec_awoken opt (masked_update (flags f) new mask) wanted)
              res) /\
       (spec_clear_on_exit opt = true ->
        Z.land (flags f2)
          (spec_awoken opt (masked_update (flags f) new mask) wanted) = 0)) /\
    (spec_awoken opt (masked_update (flags f) new mask) wanted = 0 ->
       In (nOS_runningThread k) (waitingList (e f2)) /\
       threads k2 (nOS_runningThread k) = threads k1 (nOS_runningThread k)).
Proof.
  intros Hlegal Ht Hr Hf.
  pose proof (uint_bits_nonneg _ _ Hf) as Hw.
  rewrite (FlagWait_blocks _ _ _ _ _ _ Hlegal Ht Hr).
  set (me := nOS_runningThread k).
  set (k1 := with_threads k _).
  set (f1 := {| e := _; flags := flags f |}).
  set (stored := masked_update (flags f) new mask).
  destruct (FlagSet_spec (dispatch k1 setter) f1 new mask)
    as (k2 & f2 & Hcall & _ & _ & _ & _ & _ & Hrd & Hth & Hwl & Hfl).
  cbv zeta in Hrd, Hth, Hwl, Hfl. subst f1.
  cbn [flags e waitingList threads dispatch] in Hrd, Hth, Hwl, Hfl.
  change (Z.lxor (flags f) (Z.land (Z.lxor (flags f) new) mask))
    with stored in Hrd, Hth, Hwl, Hfl.
  assert (Hctx : context (threads k1 me)
                 = {| ctx_flags := wanted; ctx_opt := opt; ctx_rflags := 0 |}).
  { subst k1. cbn [threads with_threads]. rewrite store_same. reflexivity. }
  assert (Hme : spec_r (threads k1) stored me = spec_awoken opt stored wanted).
  { unfold spec_r. rewrite Hctx. reflexivity. }
  assert (Hin : In me (waitingList (e f) ++ [me]))
    by (apply in_or_app; right; left; reflexivity).
  do 5 eexists. split; [reflexivity|]. split; [exact Hcall|]. split.
  - intros Hne.
    assert (Hwoken : In me (spec_woken (threads k1) stored
                              (waitingList (e f) ++ [me])))
      by (apply In_woken; rewrite Hme; auto).
    assert (Hk2 : threads k2 me = spec_wake (threads k1 me) (spec_awoken opt stored wanted)).
    { rewrite Hth, existsb_in by exact Hwoken. rewrite Hme. reflexivity. }
    split; [rewrite Hrd; apply in_or_app; right; exact Hwoken|].
    split.
    { rewrite Hwl, filter_In, Hme. intros [_ Hz]. apply Z.eqb_eq in Hz.
      contradiction. }
    split; [rewrite Hk2; reflexivity|].
    split; [rewrite Hk2; reflexivity|].
    split.
    { rewrite Hk2. cbn [spec_wake context ctx_rflags fst snd nOS_Error_eqb].
      destruct res; reflexivity. }
    intros Hclr.
    apply Z.bits_inj'. intros i Hi. rewrite Z.bits_0, Z.land_spec, Hfl.
    rewrite Z.land_spec, uint_not_bit by assumption.
    destruct (Z.testbit (spec_awoken opt stored wanted) i) eqn:Hb;
      [|apply andb_false_r].
    assert (Hu : Z.testbit
                   (spec_clear_union (threads k1) stored
                      (waitingList (e f) ++ [me])) i = true).
    { unfold spec_clear_union. rewrite clear_union_bits by exact Hi.
      rewrite Z.bits_0. cbn [orb]. apply existsb_exists. exists me.
      split; [exact Hwoken|]. rewrite Hctx, Hme. cbn [ctx_opt].
      rewrite Hclr, Hb. reflexivity. }
    rewrite Hu. cbn [negb]. rewrite !andb_false_r. reflexivity.
  - intros Hz.
    assert (Hnot : ~ In me (spec_woken (threads k1) stored
                              (waitingList (e f) ++ [me]))).
    { rewrite In_woken, Hme. intros [_ Hne]. contradiction. }
    split.
    + rewrite Hwl. apply filter_In. split; [exact Hin|].
      rewrite Hme, Hz. reflexivity.
    + rewrite Hth, existsb_notin by exact Hnot. reflexivity.
Qed.

(** X14: [nOS_FlagSet] asks for no reschedule when the running thread is
    outranked by no thread on the waiting list: whoever it wakes,
    [nOS_Sched] is not called. *)
Theorem FlagSet_no_preemption (k : Kernel) (f : nOS_Flag) (new mask : Z) :
  (forall t, In t (waitingList (e f)) ->
     prio (threads k t) <= prio (threads k (nOS_runningThread k))) ->
  exists k' f',
    nOS_FlagSet k (Some f) new mask = Some (NOS_OK, k', Some f') /\
    schedCalls k' = schedCalls k.
Proof.
  intros Hall.
  destruct (FlagSet_spec k f new mask)
    as (k' & f' & Hcall & _ & _ & _ & _ & Hs & _).
  cbv zeta in Hs. exists k', f'. split; [exact Hcall|].
  rewrite Hs.
  destruct (spec_outranks (threads k) (nOS_runningThread k)
              (Z.lxor (flags f) (Z.land (Z.lxor (flags f) new) mask))
              (waitingList (e f))) eqn:Hout; [|reflexivity].
  unfold spec_outranks in Hout. apply existsb_exists in Hout.
  destruct Hout as [t [Ht Hp]]. apply In_woken in Ht. destruct Ht as [Ht _].
  unfold spec_outrank in Hp. apply Z.ltb_lt in Hp.
  specialize (Hall t Ht). lia.
Qed.

(** X15: WAIT_ALL is the stronger mode. Whenever [nOS_FlagWait] succeeds
    at once under WAIT_ALL, the same call under any other mode succeeds
    at once as well and reports the same bitmask. *)
Theorem FlagWait_all_implies_any (k : Kernel) (f : nOS_Flag)
  (opt_all opt_any wanted : Z) (res : ptr Z) (tout : Z) (v : ptr Z) :
  legal k tout ->
  spec_wait_all opt_all = true -> spec_wait_all opt_any = false ->
  nOS_FlagWait k (Some f) opt_all wanted res tout
    = Some (Returns (NOS_OK, v), k, Some f) ->
  nOS_FlagWait k (Some f) opt_any wanted res tout
    = Some (Returns (NOS_OK, v), k, Some f).
Proof.
  intros Hlegal Hall Hany.
  rewrite !(FlagWait_valid _ _ _ _ _ _ Hlegal). cbv zeta.
  unfold spec_awoken. rewrite Hall, Hany. cbn [andb].
  destruct (Z.eqb_spec (Z.land (flags f) wanted) wanted) as [He|He];
    cbn [negb].
  - rewrite He. destruct (wanted =? 0); cbn [negb]; [|auto].
    destruct (0 <? tout); intros H; inversion H.
  - cbn [Z.eqb negb]. destruct (0 <? tout); intros H; inversion H.
Qed.

End Properties.

(** ** The theorems at work on the sample target *)

Lemma sample_legal (running : nat) (tout : Z) :
  running <> 0%nat -> legal (sample_kernel running) tout.
Proof.
  intros H. unfold legal. cbn. split; [lia|]. split; [lia|].
  intros He. contradiction.
Defined.

Lemma SemGive_cases_witness :
  uint16 (count contended_sem) /\ uint16 (max contended_sem) /\
  NoDup (waitingList (sem_e contended_sem)) /\
  exists err k' s' t,
    @nOS_SemGive sample_h (sample_kernel 1) (Some contended_sem)
      = Some (err, k', Some s') /\
    err = NOS_OK /\ count s' = count contended_sem /\
    Permutation (waitingList (sem_e contended_sem))
      (t :: waitingList (sem_e s')).
Proof.
  assert (H1 : uint16 (count contended_sem)) by (cbv; split; congruence).
  assert (H2 : uint16 (max contended_sem)) by (cbv; split; congruence).
  assert (H3 : NoDup (waitingList (sem_e contended_sem))).
  { cbn. repeat constructor; cbn; intuition discriminate. }
  split; [exact H1|]. split; [exact H2|]. split; [exact H3|].
  destruct (@SemGive_cases sample_h (sample_kernel 1) contended_sem H1 H2 H3)
    as (err & k' & s' & Hcall & _ & Hwake & _).
  destruct Hwake as (t & _ & _ & Hperm & _ & _ & _ & _ & Hcount & Herr & _);
    [cbn; discriminate|].
  exists err, k', s', t. auto.
Defined.

Lemma sem_count_invariant_witness :
  uint16 0 /\ uint16 2 /\ 0 < 2 /\ 0 <= 2 /\
  Forall (fun ko => op_pre (snd ko)) sample_run /\
  exists s1,
    @nOS_SemCreate sample_h (Some contended_sem) 0 2 = Some (NOS_OK, Some s1) /\
    forall n, 0 <= count (@sem_run sample_h (firstn n sample_run) s1)
                <= max (@sem_run sample_h (firstn n sample_run) s1).
Proof.
  assert (H1 : uint16 0) by (cbv; split; congruence).
  assert (H2 : uint16 2) by (cbv; split; congruence).
  assert (H3 : 0 < 2) by reflexivity.
  assert (H4 : 0 <= 2) by (cbv; congruence).
  assert (H5 : Forall (fun ko => op_pre (snd ko)) sample_run).
  { unfold sample_run. repeat constructor; cbv; congruence. }
  split; [exact H1|]. split; [exact H2|]. split; [exact H3|].
  split; [exact H4|]. split; [exact H5|].
  destruct (@sem_count_invariant sample_h contended_sem 0 2 sample_run
              H1 H2 H3 H4 H5) as (s1 & Hc & _ & _ & _ & Hinv).
  exists s1. auto.
Defined.

Lemma SemTake_cases_witness :
  uint16 (count contended_sem) /\ legal (sample_kernel 4) 10 /\
  exists resume k' s',
    @nOS_SemTake sample_h (sample_kernel 4) (Some contended_sem) 10
      = Some (Suspends resume, k', Some s') /\
    (forall status, resume status = status) /\
    waitingList (sem_e s') = [2; 5; 3; 4]%nat.
Proof.
  assert (H1 : uint16 (count contended_sem)) by (cbv; split; congruence).
  assert (H2 : legal (sample_kernel 4) 10) by (apply sample_legal; discriminate).
  split; [exact H1|]. split; [exact H2|].
  destruct (@SemTake_cases sample_h (sample_kernel 4) contended_sem 10 H1 H2)
    as (_ & _ & Hwait).
  destruct Hwait as (resume & k' & s' & Hc & Hres & Hl & _);
    [reflexivity|reflexivity|].
  exists resume, k', s'. auto.
Defined.

Lemma FlagWait_immediate_witness :
  0 <= 1 /\ legal (sample_kernel 3) 0 /\
  (exists c k' f',
     @nOS_FlagWait sample_h (sample_kernel 3)
       (Some {| e := no_waiters; flags := 1 |}) 1 3 (Some 9) 0
       = Some (c, k', Some f') /\
     forall v, c <> Returns (NOS_OK, v)) /\
  @nOS_FlagWait sample_h (sample_kernel 3)
    (Some {| e := no_waiters; flags := 1 |}) 0 3 (Some 9) 0
    = Some (Returns (NOS_OK, Some 1), sample_kernel 3,
            Some {| e := no_waiters; flags := 1 |}).
Proof.
  assert (H1 : 0 <= 1) by (cbv; congruence).
  assert (H2 : legal (sample_kernel 3) 0) by (apply sample_legal; discriminate).
  split; [exact H1|]. split; [exact H2|]. split.
  - destruct (@FlagWait_immediate sample_h (sample_kernel 3)
                {| e := no_waiters; flags := 1 |} 1 3 (Some 9) 0 H1 H2)
      as (_ & Hno & _).
    destruct Hno as (c & k' & f' & Hc & _ & Hne); [reflexivity|].
    exists c, k', f'. auto.
  - destruct (@FlagWait_immediate sample_h (sample_kernel 3)
                {| e := no_waiters; flags := 1 |} 0 3 (Some 9) 0 H1 H2)
      as (Hyes & _).
    apply Hyes. cbv. discriminate.
Defined.

(** C5, as stated, fails: in the scenario of the specification the second
    Set, with mask 0b10, wakes the WAIT_ALL + CLEAR_ON_EXIT waiter and
    clears bit 0, which lies outside its mask. *)
Lemma FlagSet_alters_bit_outside_mask :
  exists k f k' f',
    blocked_waiter = Some (k, f) /\
    @nOS_FlagSet sample_h k (Some f) 2 2 = Some (NOS_OK, k', Some f') /\
    Z.testbit 2 0 = false /\
    Z.testbit (flags f) 0 = true /\
    Z.testbit (flags f') 0 = false /\
    flags f' = 0.
Proof.
  do 4 eexists. split; [reflexivity|]. split; [reflexivity|].
  cbn. repeat split; reflexivity.
Qed.

Lemma FlagSet_update_witness :
  uint (@UINT_BITS sample_h) 1 /\ uint (@UINT_BITS sample_h) 2 /\
  exists k' f',
    @nOS_FlagSet sample_h (sample_kernel 1)
      (Some {| e := no_waiters; flags := 1 |}) 2 6
      = Some (NOS_OK, k', Some f') /\
    flags f' = Z.lxor 1 (Z.land (Z.lxor 1 2) 6).
Proof.
  assert (H1 : uint (@UINT_BITS sample_h) 1) by (cbv; split; congruence).
  assert (H2 : uint (@UINT_BITS sample_h) 2) by (cbv; split; congruence).
  split; [exact H1|]. split; [exact H2|].
  destruct (@FlagSet_update sample_h (sample_kernel 1)
              {| e := no_waiters; flags := 1 |} 2 6 H1 H2)
    as (_ & _ & k' & f' & Hc & _ & _ & _ & Hnil).
  exists k', f'. split; [exact Hc|]. apply Hnil. reflexivity.
Defined.

Lemma FlagWait_immediate_no_clear_witness :
  legal (sample_kernel 1) 0 /\
  @spec_clear_on_exit sample_h 2 = true /\
  @spec_awoken sample_h 2 2 2 <> 0 /\
  exists f',
    @nOS_FlagWait sample_h (sample_kernel 1)
      (Some {| e := no_waiters; flags := 2 |}) 2 2 (Some 0) 0
      = Some (Returns (NOS_OK, Some 2), sample_kernel 1, Some f') /\
    flags f' = 2 /\ Z.land (flags f') 2 = 2.
Proof.
  assert (H1 : legal (sample_kernel 1) 0) by (apply sample_legal; discriminate).
  assert (H2 : @spec_clear_on_exit sample_h 2 = true) by reflexivity.
  assert (H3 : @spec_awoken sample_h 2 2 2 <> 0) by (cbv; discriminate).
  split; [exact H1|]. split; [exact H2|]. split; [exact H3|].
  exact (@FlagWait_immediate_no_clear sample_h (sample_kernel 1)
           {| e := no_waiters; flags := 2 |} 2 2 (Some 0) 0 H1 H2 H3).
Defined.

Lemma legality_checks_witness :
  0 < @NOS_SAFE sample_h /\
  @nOS_SemTake sample_h (sample_kernel 0) None 5
    = Some (Returns NOS_E_NULL, sample_kernel 0, None) /\
  @nOS_SemTake sample_h (sample_kernel 0) (Some contended_sem) 5
    = Some (Returns NOS_E_IDLE, sample_kernel 0, Some contended_sem) /\
  @nOS_FlagWait sample_h (sample_kernel 0)
    (Some {| e := no_waiters; flags := 1 |}) 0 2 (Some 9) 5
    = Some (Returns (NOS_E_IDLE, Some 9), sample_kernel 0,
            Some {| e := no_waiters; flags := 1 |}).
Proof.
  assert (H0 : 0 < @NOS_SAFE sample_h) by reflexivity.
  destruct (@legality_checks sample_h (sample_kernel 0) contended_sem
              {| e := no_waiters; flags := 1 |} 0 2 (Some 9) 5)
    as (Hnull & _ & _ & Hidle & _).
  destruct (Hnull H0) as [Hn _].
  assert (Hle : 0 <= 0) by (cbv; congruence).
  destruct (Hidle Hle Hle eq_refl eq_refl) as [Hs Hf].
  auto.
Defined.

Lemma FlagCreate_null_code_witness :
  0 < @NOS_SAFE sample_h /\
  @nOS_FlagCreate sample_h None 0 = Some (NOS_E_FULL, None) /\
  @nOS_SemCreate sample_h None 0 1 = Some (NOS_E_NULL, None) /\
  NOS_E_FULL <> NOS_E_NULL.
Proof.
  assert (H0 : 0 < @NOS_SAFE sample_h) by reflexivity.
  destruct (@FlagCreate_null_code sample_h {| e := no_waiters; flags := 0 |}
              0 0 1 H0) as (H1 & H2 & H3 & _).
  auto.
Defined.

Lemma FlagWait_result_pointer_witness :
  legal (sample_kernel 3) 7 /\
  @spec_awoken sample_h 0 6 2 <> 0 /\
  @nOS_FlagWait sample_h (sample_kernel 3)
    (Some {| e := no_waiters; flags := 6 |}) 0 2 None 7
    = Some (Returns (NOS_OK, None), sample_kernel 3,
            Some {| e := no_waiters; flags := 6 |}).
Proof.
  assert (H1 : legal (sample_kernel 3) 7) by (apply sample_legal; discriminate).
  assert (H2 : @spec_awoken sample_h 0 6 2 <> 0) by (cbv; discriminate).
  split; [exact H1|]. split; [exact H2|].
  destruct (@FlagWait_result_pointer sample_h (sample_kernel 3)
              {| e := no_waiters; flags := 6 |} 0 2 None 7)
    as (_ & _ & Hnull).
  exact (Hnull H1 H2).
Defined.

Lemma SemCreate_validation_witness :
  0 < @NOS_SAFE sample_h /\
  @nOS_SemCreate sample_h (Some contended_sem) 3 2
    = Some (NOS_E_INV_VAL, Some contended_sem).
Proof.
  assert (H0 : 0 < @NOS_SAFE sample_h) by reflexivity.
  split; [exact H0|].
  apply (proj2 (@SemCreate_validation sample_h contended_sem 3 2 H0)).
  right. reflexivity.
Defined.

Lemma SemGive_saturates_witness :
  waitingList (sem_e idle_sem) = [] /\
  0 <= count idle_sem <= max idle_sem /\ uint16 (max idle_sem) /\
  count (@sem_run sample_h (repeat (sample_kernel 1, OpGive) 5) idle_sem) = 3.
Proof.
  assert (H1 : waitingList (sem_e idle_sem) = []) by reflexivity.
  assert (H2 : 0 <= count idle_sem <= max idle_sem) by (cbv; split; congruence).
  assert (H3 : uint16 (max idle_sem)) by (cbv; split; congruence).
  split; [exact H1|]. split; [exact H2|]. split; [exact H3|].
  exact (proj1 (@SemGive_saturates sample_h (sample_kernel 1) idle_sem 5
                  H1 H2 H3)).
Defined.

Lemma SemTake_drains_witness :
  legal (sample_kernel 1) 0 /\ uint16 (count idle_sem) /\
  count (@sem_run sample_h (repeat (sample_kernel 1, OpTake 0) 4) idle_sem) = 0.
Proof.
  assert (H1 : legal (sample_kernel 1) 0) by (apply sample_legal; discriminate).
  assert (H2 : uint16 (count idle_sem)) by (cbv; split; congruence).
  split; [exact H1|]. split; [exact H2|].
  exact (proj1 (@SemTake_drains sample_h (sample_kernel 1) idle_sem 4 H1 H2)).
Defined.

Lemma SemGive_SemTake_round_trip_witness :
  waitingList (sem_e idle_sem) = [] /\
  uint16 (count idle_sem) /\ uint16 (max idle_sem) /\
  legal (sample_kernel 2) 5 /\
  exists s1,
    @nOS_SemGive sample_h (sample_kernel 0) (Some idle_sem)
      = Some (NOS_OK, sample_kernel 0, Some s1) /\
    @nOS_SemTake sample_h (sample_kernel 2) (Some s1) 5
      = Some (Returns NOS_OK, sample_kernel 2, Some idle_sem).
Proof.
  assert (H1 : waitingList (sem_e idle_sem) = []) by reflexivity.
  assert (H2 : uint16 (count idle_sem)) by (cbv; split; congruence).
  assert (H3 : uint16 (max idle_sem)) by (cbv; split; congruence).
  assert (H4 : legal (sample_kernel 2) 5) by (apply sample_legal; discriminate).
  split; [exact H1|]. split; [exact H2|]. split; [exact H3|]. split; [exact H4|].
  apply (proj1 (@SemGive_SemTake_round_trip sample_h (sample_kernel 0)
                  (sample_kernel 2) idle_sem 5 H1 H2 H3 H4)).
  reflexivity.
Defined.

Lemma SemTake_SemGive_handover_witness :
  legal (sample_kernel 4) 10 /\ 0 < 10 /\ count empty_sem = 0 /\
  waitingList (sem_e empty_sem) = [] /\
  exists resume k1 s1 k2 s2,
    @nOS_SemTake sample_h (sample_kernel 4) (Some empty_sem) 10
      = Some (Suspends resume, k1, Some s1) /\
    @nOS_SemGive sample_h (dispatch k1 1) (Some s1)
      = Some (NOS_OK, k2, Some s2) /\
    count s2 = 0 /\ waitingList (sem_e s2) = [] /\
    readyThreads k2 = [4%nat].
Proof.
  assert (H1 : legal (sample_kernel 4) 10) by (apply sample_legal; discriminate).
  assert (H2 : 0 < 10) by reflexivity.
  assert (H3 : count empty_sem = 0) by reflexivity.
  assert (H4 : waitingList (sem_e empty_sem) = []) by reflexivity.
  split; [exact H1|]. split; [exact H2|]. split; [exact H3|]. split; [exact H4|].
  destruct (@SemTake_SemGive_handover sample_h (sample_kernel 4) empty_sem 10 1
              H1 H2 H3 H4)
    as (resume & k1 & s1 & k2 & s2 & Ha & _ & Hb & Hc & _ & Hd & He & _).
  exists resume, k1, s1, k2, s2. auto.
Defined.

Lemma SemGive_no_preemption_witness :
  (forall t, In t (waitingList (sem_e contended_sem)) ->
     prio (threads (sample_kernel 9) t)
       <= prio (threads (sample_kernel 9) (nOS_runningThread (sample_kernel 9)))) /\
  exists err k' s',
    @nOS_SemGive sample_h (sample_kernel 9) (Some contended_sem)
      = Some (err, k', Some s') /\
    schedCalls k' = schedCalls (sample_kernel 9).
Proof.
  assert (H1 : forall t, In t (waitingList (sem_e contended_sem)) ->
     prio (threads (sample_kernel 9) t)
       <= prio (threads (sample_kernel 9) (nOS_runningThread (sample_kernel 9)))).
  { intros t [<-|[<-|[<-|[]]]]; cbv; congruence. }
  split; [exact H1|].
  exact (@SemGive_no_preemption sample_h (sample_kernel 9) contended_sem H1).
Defined.

Lemma SemGive_any_context_witness :
  uint16 (count idle_sem) /\ uint16 (max idle_sem) /\
  exists err k' s',
    @nOS_SemGive sample_h (in_isr (sample_kernel 0)) (Some idle_sem)
      = Some (err, k', Some s') /\
    (err = NOS_OK \/ err = NOS_E_OVERFLOW).
Proof.
  assert (H1 : uint16 (count idle_sem)) by (cbv; split; congruence).
  assert (H2 : uint16 (max idle_sem)) by (cbv; split; congruence).
  split; [exact H1|]. split; [exact H2|].
  destruct (@SemGive_any_context sample_h (in_isr (sample_kernel 0)) idle_sem
              H1 H2) as (err & k' & s' & Ha & Hb & _).
  exists err, k', s'. auto.
Defined.

Lemma FlagSet_idempotent_witness :
  waitingList (e {| e := no_waiters; flags := 5 |}) = [] /\
  uint (@UINT_BITS sample_h) 5 /\ uint (@UINT_BITS sample_h) 3 /\
  exists f1,
    @nOS_FlagSet sample_h (sample_kernel 1)
      (Some {| e := no_waiters; flags := 5 |}) 3 6
      = Some (NOS_OK, sample_kernel 1, Some f1) /\
    @nOS_FlagSet sample_h (sample_kernel 1) (Some f1) 3 6
      = Some (NOS_OK, sample_kernel 1, Some f1).
Proof.
  assert (H1 : waitingList (e {| e := no_waiters; flags := 5 |}) = [])
    by reflexivity.
  assert (H2 : uint (@UINT_BITS sample_h) 5) by (cbv; split; congruence).
  assert (H3 : uint (@UINT_BITS sample_h) 3) by (cbv; split; congruence).
  split; [exact H1|]. split; [exact H2|]. split; [exact H3|].
  exact (@FlagSet_idempotent sample_h (sample_kernel 1)
           {| e := no_waiters; flags := 5 |} 3 6 H1 H2 H3).
Defined.

Lemma FlagSet_composes_witness :
  waitingList (e {| e := no_waiters; flags := 8 |}) = [] /\
  uint (@UINT_BITS sample_h) 8 /\ uint (@UINT_BITS sample_h) 1 /\
  uint (@UINT_BITS sample_h) 4 /\
  exists f1 f2,
    @nOS_FlagSet sample_h (sample_kernel 1)
      (Some {| e := no_waiters; flags := 8 |}) 1 3
      = Some (NOS_OK, sample_kernel 1, Some f1) /\
    @nOS_FlagSet sample_h (sample_kernel 1) (Some f1) 4 6
      = Some (NOS_OK, sample_kernel 1, Some f2) /\
    @nOS_FlagSet sample_h (sample_kernel 1)
      (Some {| e := no_waiters; flags := 8 |}) (masked_update 1 4 6) (Z.lor 3 6)
      = Some (NOS_OK, sample_kernel 1, Some f2).
Proof.
  assert (H1 : waitingList (e {| e := no_waiters; flags := 8 |}) = [])
    by reflexivity.
  assert (H2 : uint (@UINT_BITS sample_h) 8) by (cbv; split; congruence).
  assert (H3 : uint (@UINT_BITS sample_h) 1) by (cbv; split; congruence).
  assert (H4 : uint (@UINT_BITS sample_h) 4) by (cbv; split; congruence).
  split; [exact H1|]. split; [exact H2|]. split; [exact H3|]. split; [exact H4|].
  exact (@FlagSet_composes sample_h (sample_kernel 1)
           {| e := no_waiters; flags := 8 |} 1 3 4 6 H1 H2 H3 H4).
Defined.

Lemma FlagSet_nobody_satisfied_witness :
  uint (@UINT_BITS sample_h) (flags waited_flag) /\
  uint (@UINT_BITS sample_h) 4 /\
  (forall t, In t (waitingList (e waited_flag)) ->
     @spec_r sample_h (threads (waiting_kernel 1))
       (masked_update (flags waited_flag) 4 4) t = 0) /\
  exists k' f',
    @nOS_FlagSet sample_h (waiting_kernel 1) (Some waited_flag) 4 4
      = Some (NOS_OK, k', Some f') /\
    waitingList (e f') = [3%nat] /\ flags f' = 5.
Proof.
  assert (H1 : uint (@UINT_BITS sample_h) (flags waited_flag))
    by (cbv; split; congruence).
  assert (H2 : uint (@UINT_BITS sample_h) 4) by (cbv; split; congruence).
  assert (H3 : forall t, In t (waitingList (e waited_flag)) ->
     @spec_r sample_h (threads (waiting_kernel 1))
       (masked_update (flags waited_flag) 4 4) t = 0).
  { intros t [<-|[]]. reflexivity. }
  split; [exact H1|]. split; [exact H2|]. split; [exact H3|].
  destruct (@FlagSet_nobody_satisfied sample_h (waiting_kernel 1) waited_flag
              4 4 H1 H2 H3) as (k' & f' & Ha & Hb & Hc & _).
  exists k', f'. auto.
Defined.

Lemma FlagWait_nothing_wanted_witness :
  legal (sample_kernel 3) 0 /\
  @nOS_FlagWait sample_h (sample_kernel 3)
    (Some {| e := no_waiters; flags := 7 |}) 0 0 (Some 9) 0
    = Some (Returns (NOS_E_AGAIN, Some 9), sample_kernel 3,
            Some {| e := no_waiters; flags := 7 |}).
Proof.
  assert (H1 : legal (sample_kernel 3) 0) by (apply sample_legal; discriminate).
  split; [exact H1|].
  exact (proj1 (@FlagWait_nothing_wanted sample_h (sample_kernel 3)
                  {| e := no_waiters; flags := 7 |} 0 (Some 9) 0 0 0%nat) H1).
Defined.

Lemma FlagWait_suspends_witness :
  legal (sample_kernel 3) 100 /\ 0 < 100 /\
  @spec_awoken sample_h 3 1 3 = 0 /\
  exists resume k1 f1,
    @nOS_FlagWait sample_h (sample_kernel 3)
      (Some {| e := no_waiters; flags := 1 |}) 3 3 (Some 9) 100
      = Some (Suspends resume, k1, Some f1) /\
    flags f1 = 1 /\ waitingList (e f1) = [3%nat] /\
    context (threads k1 3%nat)
      = {| ctx_flags := 3; ctx_opt := 3; ctx_rflags := 0 |}.
Proof.
  assert (H1 : legal (sample_kernel 3) 100) by (apply sample_legal; discriminate).
  assert (H2 : 0 < 100) by reflexivity.
  assert (H3 : @spec_awoken sample_h 3 1 3 = 0) by reflexivity.
  split; [exact H1|]. split; [exact H2|]. split; [exact H3|].
  destruct (@FlagWait_suspends sample_h (sample_kernel 3)
              {| e := no_waiters; flags := 1 |} 3 3 (Some 9) 100 H1 H2 H3)
    as (resume & k1 & f1 & Ha & Hb & Hc & Hd & _).
  exists resume, k1, f1. auto.
Defined.

Lemma FlagWait_FlagSet_deferred_witness :
  legal (sample_kernel 3) 100 /\ 0 < 100 /\
  @spec_awoken sample_h 3 1 3 = 0 /\ uint (@UINT_BITS sample_h) 1 /\
  @spec_awoken sample_h 3 (masked_update 1 2 2) 3 <> 0 /\
  @spec_clear_on_exit sample_h 3 = true /\
  exists resume k1 f1 k2 f2,
    @nOS_FlagWait sample_h (sample_kernel 3)
      (Some {| e := no_waiters; flags := 1 |}) 3 3 (Some 9) 100
      = Some (Suspends resume, k1, Some f1) /\
    @nOS_FlagSet sample_h (dispatch k1 1) (Some f1) 2 2
      = Some (NOS_OK, k2, Some f2) /\
    In 3%nat (readyThreads k2) /\
    resume (NOS_OK, ctx_rflags (context (threads k2 3%nat)))
      = (NOS_OK, Some 3) /\
    Z.land (flags f2) 3 = 0.
Proof.
  assert (H1 : legal (sample_kernel 3) 100) by (apply sample_legal; discriminate).
  assert (H2 : 0 < 100) by reflexivity.
  assert (H3 : @spec_awoken sample_h 3 1 3 = 0) by reflexivity.
  assert (H4 : uint (@UINT_BITS sample_h) 1) by (cbv; split; congruence).
  assert (H5 : @spec_awoken sample_h 3 (masked_update 1 2 2) 3 <> 0)
    by (cbv; discriminate).
  assert (H6 : @spec_clear_on_exit sample_h 3 = true) by reflexivity.
  split; [exact H1|]. split; [exact H2|]. split; [exact H3|].
  split; [exact H4|]. split; [exact H5|]. split; [exact H6|].
  destruct (@FlagWait_FlagSet_deferred sample_h (sample_kernel 3)
              {| e := no_waiters; flags := 1 |} 3 3 (Some 9) 100 1%nat 2 2
              H1 H2 H3 H4)
    as (resume & k1 & f1 & k2 & f2 & Ha & Hb & Hwake & _).
  destruct (Hwake H5) as (Hc & _ & _ & _ & Hd & He).
  exists resume, k1, f1, k2, f2.
  split; [exact Ha|]. split; [exact Hb|]. split; [exact Hc|].
  split; [exact Hd|]. exact (He H6).
Defined.

Lemma FlagSet_no_preemption_witness :
  (forall t, In t (waitingList (e waited_flag)) ->
     prio (threads (waiting_kernel 7) t)
       <= prio (threads (waiting_kernel 7) (nOS_runningThread (waiting_kernel 7)))) /\
  exists k' f',
    @nOS_FlagSet sample_h (waiting_kernel 7) (Some waited_flag) 2 2
      = Some (NOS_OK, k', Some f') /\
    schedCalls k' = schedCalls (waiting_kernel 7).
Proof.
  assert (H1 : forall t, In t (waitingList (e waited_flag)) ->
     prio (threads (waiting_kernel 7) t)
       <= prio (threads (waiting_kernel 7) (nOS_runningThread (waiting_kernel 7)))).
  { intros t [<-|[]]. cbv. congruence. }
  split; [exact H1|].
  exact (@FlagSet_no_preemption sample_h (waiting_kernel 7) waited_flag 2 2 H1).
Defined.

Lemma FlagWait_all_implies_any_witness :
  legal (sample_kernel 3) 0 /\
  @spec_wait_all sample_h 1 = true /\ @spec_wait_all sample_h 0 = false /\
  @nOS_FlagWait sample_h (sample_kernel 3)
    (Some {| e := no_waiters; flags := 7 |}) 1 3 (Some 0) 0
    = Some (Returns (NOS_OK, Some 3), sample_kernel 3,
            Some {| e := no_waiters; flags := 7 |}) /\
  @nOS_FlagWait sample_h (sample_kernel 3)
    (Some {| e := no_waiters; flags := 7 |}) 0 3 (Some 0) 0
    = Some (Returns (NOS_OK, Some 3), sample_kernel 3,
            Some {| e := no_waiters; flags := 7 |}).
Proof.
  assert (H1 : legal (sample_kernel 3) 0) by (apply sample_legal; discriminate).
  assert (H2 : @spec_wait_all sample_h 1 = true) by reflexivity.
  assert (H3 : @spec_wait_all sample_h 0 = false) by reflexivity.
  assert (H4 : @nOS_FlagWait sample_h (sample_kernel 3)
    (Some {| e := no_waiters; flags := 7 |}) 1 3 (Some 0) 0
    = Some (Returns (NOS_OK, Some 3), sample_kernel 3,
            Some {| e := no_waiters; flags := 7 |})) by reflexivity.
  split; [exact H1|]. split; [exact H2|]. split; [exact H3|]. split; [exact H4|].
  exact (@FlagWait_all_implies_any sample_h (sample_kernel 3)
           {| e := no_waiters; flags := 7 |} 1 0 3 (Some 0) 0 (Some 3)
           H1 H2 H3 H4).
Defined.
